(** * Group-meeting scheduler: the Lambda action handler

    A shallow embedding of [src/lambda/lambda_function.py]: the RSVP parser
    ([parse_datetime], [rsvp]), the slot aggregation and best-slot selection
    ([select_time]), the confirmation step ([update_event_time],
    [find_best_time]) and the dispatcher ([lambda_handler]).

    Conventions of the embedding.
    - Python [str] is [string]; characters are the 8-bit code points of
      [ascii].
    - A call that may raise returns [result]; [Raise e] is the exception
      travelling upwards, and every [try ... except Exception] of the source
      is a [match] on it.
    - The Supabase tables are the two row lists of [database]; every
      executed insert and update is also appended to its [journal], so that
      "no write happened" can be told apart from "the same value was written
      again".  Whether an [execute()] call raises is decided by a
      [store_faults] argument of the function that makes the call; the
      insert of [rsvp] takes none, the call is never reached
      ([rsvp_never_records]). *)

From Stdlib Require Import List ZArith Lia Bool Arith String Ascii.
From Stdlib Require Import Permutation Sorted DecimalString.
From Equations Require Import Equations.
Import ListNotations.

Local Open Scope string_scope.
Local Open Scope nat_scope.

(** ** Exceptions and results *)

Inductive exn : Type :=
| ValueError (msg : string)
| IndexError (msg : string)
| UnboundLocalError (name : string)
| NameError (name : string)
| KeyError (key : string)
| TypeError (msg : string)
| OverflowError (msg : string)
| StopIteration.

Inductive result (A : Type) : Type :=
| Ok (a : A)
| Raise (e : exn).
Arguments Ok {A} a.
Arguments Raise {A} e.

Definition raises {A} (r : result A) : bool :=
  match r with Ok _ => false | Raise _ => true end.

(** ** The fragment of Python's [str] the handler uses *)

Module PyStr.

(** [str.isspace] on one character, for code points below 256. *)
Definition isspace (c : ascii) : bool :=
  let n := nat_of_ascii c in
  ((9 <=? n) && (n <=? 13)) || ((28 <=? n) && (n <=? 32))
  || (n =? 133) || (n =? 160).

Definition is_empty (s : string) : bool :=
  match s with EmptyString => true | String _ _ => false end.

(** Truth value of a string in a condition: non-empty. *)
Definition truthy (s : string) : bool := negb (is_empty s).

(** [s.split()] with no argument: maximal runs of non-space characters.
    [tok] is the token being read. *)
Fixpoint split_from (s tok : string) : list string :=
  match s with
  | EmptyString => if is_empty tok then [] else [tok]
  | String c rest =>
      if isspace c
      then (if is_empty tok then split_from rest EmptyString
            else tok :: split_from rest EmptyString)
      else split_from rest (tok ++ String c EmptyString)
  end.

Definition split (s : string) : list string := split_from s EmptyString.

Fixpoint mem (c : ascii) (chars : string) : bool :=
  match chars with
  | EmptyString => false
  | String d rest => Ascii.eqb c d || mem c rest
  end.

(** [s.lstrip(chars)] removes leading characters that occur in [chars]. *)
Fixpoint lstrip (chars s : string) : string :=
  match s with
  | EmptyString => EmptyString
  | String c rest => if mem c chars then lstrip chars rest else s
  end.

(** [s[i]] for a non-negative index. *)
Definition getitem (s : string) (i : nat) : result string :=
  match String.get i s with
  | Some c => Ok (String c EmptyString)
  | None => Raise (IndexError "string index out of range")
  end.

(** [range(start, stop)] on naturals. *)
Definition range (start stop : nat) : list nat := seq start (stop - start).

End PyStr.

(** ** [datetime.strptime(_, "%y-%m-%d:%H-%M")] and [isoformat]

    The value [strptime] builds is kept as its calendar fields: the handler
    only prints it back with [isoformat]. *)

Record datetime : Type := mkDatetime {
  year : nat; month : nat; day : nat; hour : nat; minute : nat
}.

Module Strptime.

Definition digit_of (c : ascii) : option nat :=
  let n := nat_of_ascii c in
  if (48 <=? n) && (n <=? 57) then Some (n - 48) else None.

(** A matcher lists its ways to consume a prefix, in the order in which the
    backtracking regex engine tries them. *)
Definition matcher (A : Type) : Type := string -> list (A * string).

Definition ret {A} (a : A) : matcher A := fun s => [(a, s)].

Definition bind {A B} (p : matcher A) (k : A -> matcher B) : matcher B :=
  fun s => flat_map (fun ar => k (fst ar) (snd ar)) (p s).

Definition alt {A} (p q : matcher A) : matcher A := fun s => (p s ++ q s)%list.

Definition lit (c : ascii) : matcher unit :=
  fun s => match s with
           | String d rest => if Ascii.eqb c d then [(tt, rest)] else []
           | EmptyString => []
           end.

(** One digit whose value satisfies [ok]. *)
Definition digit (ok : nat -> bool) : matcher nat :=
  fun s => match s with
           | String c rest =>
               match digit_of c with
               | Some d => if ok d then [(d, rest)] else []
               | None => []
               end
           | EmptyString => []
           end.

Definition two (ok1 ok2 : nat -> bool) : matcher nat :=
  bind (digit ok1) (fun a => bind (digit ok2) (fun b => ret (10 * a + b))).

Definition any (_ : nat) : bool := true.
Definition between (lo hi d : nat) : bool := (lo <=? d) && (d <=? hi).

(** The groups of [_strptime.TimeRE] for the five directives. *)
Definition re_y : matcher nat := two any any.
Definition re_m : matcher nat :=
  alt (two (Nat.eqb 1) (between 0 2))
      (alt (two (Nat.eqb 0) (between 1 9)) (digit (between 1 9))).
Definition re_d : matcher nat :=
  alt (two (Nat.eqb 3) (between 0 1))
      (alt (two (between 1 2) any)
           (alt (two (Nat.eqb 0) (between 1 9))
                (alt (digit (between 1 9))
                     (bind (lit " ") (fun _ => digit (between 1 9)))))).
Definition re_H : matcher nat :=
  alt (two (Nat.eqb 2) (between 0 3)) (alt (two (between 0 1) any) (digit any)).
Definition re_M : matcher nat := alt (two (between 0 5) any) (digit any).

(** The compiled format ["%y-%m-%d:%H-%M"]. *)
Definition format_regex : matcher (nat * nat * nat * nat * nat) :=
  bind re_y (fun y => bind (lit "-") (fun _ =>
  bind re_m (fun m => bind (lit "-") (fun _ =>
  bind re_d (fun d => bind (lit ":") (fun _ =>
  bind re_H (fun H => bind (lit "-") (fun _ =>
  bind re_M (fun M => ret (y, m, d, H, M)))))))))).

Definition is_leap (y : nat) : bool :=
  ((y mod 4 =? 0) && negb (y mod 100 =? 0)) || (y mod 400 =? 0).

Definition days_in_month (y m : nat) : nat :=
  match m with
  | 2 => if is_leap y then 29 else 28
  | 4 | 6 | 9 | 11 => 30
  | _ => 31
  end.

(** [regex.match] takes the first way to match a prefix; what is left over
    is an error, and so is a day the month does not have.  Two-digit years
    up to 68 are in the 2000s, the others in the 1900s. *)
Definition strptime (s : string) : result datetime :=
  match format_regex s with
  | [] => Raise (ValueError "time data does not match format")
  | ((y, m, d, H, M), rest) :: _ =>
      if PyStr.is_empty rest then
        let yr := if y <=? 68 then 2000 + y else 1900 + y in
        if d <=? days_in_month yr m
        then Ok (mkDatetime yr m d H M)
        else Raise (ValueError "day is out of range for month")
      else Raise (ValueError "unconverted data remains")
  end.

Definition digit_char (d : nat) : ascii := ascii_of_nat (48 + d mod 10).

Definition pad2 (n : nat) : string :=
  String (digit_char (n / 10)) (String (digit_char n) EmptyString).

Definition pad4 (n : nat) : string := pad2 (n / 100) ++ pad2 (n mod 100).

(** [datetime.isoformat()] of a value with zero seconds and microseconds. *)
Definition isoformat (t : datetime) : string :=
  pad4 (year t) ++ "-" ++ pad2 (month t) ++ "-" ++ pad2 (day t) ++ "T"
  ++ pad2 (hour t) ++ ":" ++ pad2 (minute t) ++ ":00".

End Strptime.

(** [parse_datetime] *)
Definition parse_datetime (dt_string : string) : result string :=
  match Strptime.strptime (PyStr.lstrip "start:" dt_string) with
  | Ok t => Ok (Strptime.isoformat t)
  | Raise e => Raise e
  end.

(** ** The store: the [events] and [availabilities] tables *)

Record event_row : Type := mkEvent {
  ev_eventID : string;
  ev_groupID : string;
  ev_period : string;
  ev_description : string;
  ev_confirmedTime : option string
}.

Record availability_row : Type := mkAvailability {
  av_userID : string;
  av_eventID : string;
  av_startTime : string;
  av_endTime : string
}.

(** One executed write statement. *)
Inductive write : Type :=
| InsertEvent (row : event_row)
| InsertAvailability (row : availability_row)
| UpdateConfirmedTime (event_id confirmed_time : string).

Record database : Type := mkDatabase {
  events : list event_row;
  availabilities : list availability_row;
  serial : nat;               (* next identifier the events table hands out *)
  journal : list write        (* executed writes, most recent first *)
}.

Module Store.

Definition show_id (n : nat) : string := NilEmpty.string_of_uint (Nat.to_uint n).

(** [table("events").insert({...}).execute()]: the table assigns the
    identifier; the inserted row is returned. *)
Definition insert_event (group_id period description : string)
    (confirmed : option string) (db : database) : event_row * database :=
  let row := mkEvent (show_id (serial db)) group_id period description confirmed in
  (row, mkDatabase (events db ++ [row]) (availabilities db) (S (serial db))
                   (InsertEvent row :: journal db)).

(** [table("availabilities").insert({...}).execute()] *)
Definition insert_availability (row : availability_row) (db : database)
    : database :=
  mkDatabase (events db) (availabilities db ++ [row]) (serial db)
             (InsertAvailability row :: journal db).

(** [table("availabilities").select("*").eq("eventID", event_id).execute()] *)
Definition select_availabilities (event_id : string) (db : database)
    : list availability_row :=
  filter (fun r => String.eqb (av_eventID r) event_id) (availabilities db).

Definition set_confirmed (event_id confirmed_time : string) (r : event_row)
    : event_row :=
  if String.eqb (ev_eventID r) event_id
  then mkEvent (ev_eventID r) (ev_groupID r) (ev_period r) (ev_description r)
               (Some confirmed_time)
  else r.

(** [table("events").update({"confirmedTime": t}).eq("eventID", id).execute()]:
    every matching row is rewritten; matching no row is not an error. *)
Definition update_confirmed_time (event_id confirmed_time : string)
    (db : database) : database :=
  mkDatabase (map (set_confirmed event_id confirmed_time) (events db))
             (availabilities db) (serial db)
             (UpdateConfirmedTime event_id confirmed_time :: journal db).

(** The confirmed time of the first row with this identifier. *)
Definition confirmed_time_of (event_id : string) (db : database)
    : option string :=
  match find (fun r => String.eqb (ev_eventID r) event_id) (events db) with
  | Some r => ev_confirmedTime r
  | None => None
  end.

(** How many confirmed-time updates were executed for the event. *)
Definition confirmations (event_id : string) (db : database) : nat :=
  List.length (filter (fun w => match w with
                           | UpdateConfirmedTime e _ => String.eqb e event_id
                           | _ => false
                           end) (journal db)).

End Store.

(** ** Failing store calls

    Every [execute()] may raise (the transport fails, the store refuses the
    statement); the store is then left as it was.  A [store_faults] says,
    for each statement a call sends, whether it raises and what. *)

Inductive statement : Type :=
| InsertEventStmt (group_id period description : string)
| InsertAvailabilityStmt (row : availability_row)
| SelectAvailabilitiesStmt (event_id : string)
| UpdateConfirmedTimeStmt (event_id confirmed_time : string).

Definition store_faults : Type := statement -> option exn.

(** The store that executes every statement. *)
Definition no_faults : store_faults := fun _ => None.

(** ** Values the actions return

    [Message m] is [{"message": m}], [EventID i] is [{"eventID": i}],
    [Error p e] is the dict [{"error": p + str(e)}], [ErrorText m] is
    [{"error": m}], and [ErrorSet p e] is the one-element set
    [{p + str(e)}] that the last handler of [rsvp] builds. *)
Inductive response : Type :=
| Message (m : string)
| EventID (i : string)
| Error (prefix : string) (e : exn)
| ErrorText (m : string)
| ErrorSet (prefix : string) (e : exn).

Definition is_error (r : response) : bool :=
  match r with
  | Error _ _ | ErrorText _ | ErrorSet _ _ => true
  | Message _ | EventID _ => false
  end.

(** The answer of the inner handler of [rsvp]. *)
Definition is_malformed_error (r : response) : bool :=
  match r with
  | Error p _ => String.eqb p "Malformed available time data!"
  | _ => false
  end.

(** ** [create_event] *)
Definition create_event (faults : store_faults)
    (group_id period description : string) (db : database)
    : response * database :=
  match faults (InsertEventStmt group_id period description) with
  | Some e => (Error "" e, db)
  | None =>
      let (row, db') := Store.insert_event group_id period description None db in
      (EventID (ev_eventID row), db')
  end.

(** ** [rsvp] *)

(** The locals [start_time] and [end_time]; [None] is "not yet bound". *)
Definition rsvp_locals : Type := (option string * option string)%type.

Inductive loop_exit (A : Type) : Type :=
| Finished (locals : A)          (* the loop ran out of indices *)
| Returned (r : response).       (* a [return] inside the loop *)
Arguments Finished {A} locals.
Arguments Returned {A} r.

(** One turn of the loop body, with its own [try ... except]. *)
Definition rsvp_body (availiable_time : string) (i : nat) (locals : rsvp_locals)
    : loop_exit rsvp_locals :=
  match PyStr.getitem availiable_time i with
  | Raise e => Returned (Error "Malformed available time data!" e)
  | Ok c1 =>
      match parse_datetime c1 with
      | Raise e => Returned (Error "Malformed available time data!" e)
      | Ok start_time =>
          match PyStr.getitem availiable_time (i + 1) with
          | Raise e => Returned (Error "Malformed available time data!" e)
          | Ok c2 =>
              match parse_datetime c2 with
              | Raise e => Returned (Error "Malformed available time data!" e)
              | Ok end_time => Finished (Some start_time, Some end_time)
              end
          end
      end
  end.

Fixpoint rsvp_loop (availiable_time : string) (indices : list nat)
    (locals : rsvp_locals) : loop_exit rsvp_locals :=
  match indices with
  | [] => Finished locals
  | i :: rest =>
      match rsvp_body availiable_time i locals with
      | Returned r => Returned r
      | Finished locals' => rsvp_loop availiable_time rest locals'
      end
  end.

(** The loop runs over [range(len(availiable_time.split()), 2)] and indexes
    the raw string.  After it, the payload of the insert reads [start_time]
    and then [end_time]; reading an unbound local raises, and the outer
    handler turns that into the error set. *)
Definition rsvp (user_id event_id availiable_time : string) (db : database)
    : response * database :=
  let indices := PyStr.range (List.length (PyStr.split availiable_time)) 2 in
  match rsvp_loop availiable_time indices (None, None) with
  | Returned r => (r, db)
  | Finished (None, _) =>
      (ErrorSet "error: " (UnboundLocalError "start_time"), db)
  | Finished (Some _, None) =>
      (ErrorSet "error: " (UnboundLocalError "end_time"), db)
  | Finished (Some start_time, Some end_time) =>
      (Message "Availability recorded successfully",
       Store.insert_availability
         (mkAvailability user_id event_id start_time end_time) db)
  end.

Definition empty_db : database := mkDatabase [] [] 0 [].

(** ** Instants, windows and slots

    In [select_time] the stored strings have become [datetime] objects that
    are only compared and shifted by thirty minutes.  Such a value is
    modelled by its position on the time line, in microseconds (the
    resolution of [datetime]) since 0001-01-01T00:00:00.  All values are
    naive.  A [datetime] lies between 0001-01-01T00:00:00 and
    9999-12-31T23:59:59.999999; adding a [timedelta] raises
    [OverflowError] when the sum does not. *)

Local Open Scope Z_scope.

Definition instant : Type := Z.

(** [timedelta(minutes=m)] *)
Definition timedelta_minutes (m : Z) : Z := m * 60000000.

Definition thirty_minutes : Z := Eval cbv in timedelta_minutes 30.

(** [datetime.max], 9999-12-31T23:59:59.999999: the last microsecond of
    day 3652059. *)
Definition datetime_max : instant :=
  Eval cbv in 3652059 * 86400 * 1000000 - 1.

Definition is_datetime (t : instant) : Prop := 0 <= t <= datetime_max.

Definition is_datetime_dec (t : instant) : {is_datetime t} + {~ is_datetime t}.
Proof.
  unfold is_datetime.
  destruct (Z_le_dec 0 t); destruct (Z_le_dec t datetime_max);
    (left; lia) || (right; lia).
Defined.

(** A row of [availabilities] after its two times were converted. *)
Record window : Type := mkWindow {
  w_userID : string;
  startTime : instant;
  endTime : instant
}.

Definition slot : Type := (instant * instant)%type.

(** ** The built-ins [min], [max] and [max(_, key=_)]

    Each keeps the first item and replaces it only by a strictly smaller
    (for [min]) or strictly larger (for [max]) later one; on an empty
    argument each raises [ValueError]. *)

Definition py_min (xs : list Z) : result Z :=
  match xs with
  | [] => Raise (ValueError "min() iterable argument is empty")
  | x :: rest => Ok (fold_left (fun m v => if v <? m then v else m) rest x)
  end.

Definition py_max (xs : list Z) : result Z :=
  match xs with
  | [] => Raise (ValueError "max() iterable argument is empty")
  | x :: rest => Ok (fold_left (fun m v => if v >? m then v else m) rest x)
  end.

(** The running best of [max(items, key=key)]: the item and its key. *)
Definition max_step {A} (key : A -> Z) (best : A * Z) (item : A) : A * Z :=
  let k := key item in
  if k >? snd best then (item, k) else best.

Definition py_max_key {A} (key : A -> Z) (items : list A) : result A :=
  match items with
  | [] => Raise (ValueError "max() iterable argument is empty")
  | x :: rest => Ok (fst (fold_left (max_step key) rest (x, key x)))
  end.

(** ** The slot loop

    [while current_time < end_time: slots.append(...); current_time += 30min].
    Building the slot adds thirty minutes to [current_time], which raises
    when the sum is past [datetime.max].  The number of slots still to
    come decreases at each turn. *)
Equations? slots_loop (current_time end_time : instant) (slots : list slot)
    : result (list slot)
    by wf (Z.to_nat ((end_time - current_time + thirty_minutes - 1)
                     / thirty_minutes)) lt :=
  slots_loop current_time end_time slots
    with Z_lt_dec current_time end_time => {
    | left _ with is_datetime_dec (current_time + thirty_minutes) => {
        | left _ :=
            slots_loop (current_time + thirty_minutes) end_time
              (slots ++ [(current_time, current_time + thirty_minutes)])%list;
        | right _ := Raise (OverflowError "date value out of range") };
    | right _ := Ok slots }.
Proof.
  replace (end_time - (current_time + thirty_minutes) + thirty_minutes - 1)
    with ((end_time - current_time + thirty_minutes - 1)
          + (-1) * thirty_minutes) by lia.
  rewrite Z.div_add by (unfold thirty_minutes; lia).
  assert (0 < (end_time - current_time + thirty_minutes - 1) / thirty_minutes).
  { apply Z.div_str_pos. unfold thirty_minutes in *. lia. }
  lia.
Qed.

(** ** Coverage of a slot *)

(** The condition of the generator inside [sum]. *)
Definition covers (s : slot) (avail : window) : bool :=
  (startTime avail <=? fst s) && (endTime avail >=? snd s).

(** [sum(1 for avail in availabilities if ...)] *)
Definition coverage (availabilities : list window) (s : slot) : Z :=
  fold_left Z.add (map (fun _ => 1) (filter (covers s) availabilities)) 0.

(** ** The computation of [select_time] once the rows are converted *)

Definition bind_result {A B} (r : result A) (k : A -> result B) : result B :=
  match r with
  | Ok a => k a
  | Raise e => Raise e
  end.

Notation "x <- r ;; k" := (bind_result r (fun x => k))
  (at level 61, r at next level, right associativity).

(** Lines 111-120: the overall span and its thirty-minute slots. *)
Definition all_slots (availabilities : list window) : result (list slot) :=
  start_time <- py_min (map startTime availabilities) ;;
  end_time <- py_max (map endTime availabilities) ;;
  slots_loop start_time end_time [].

(** Lines 111-130: the slot [max] picks. *)
Definition best_slot (availabilities : list window) : result slot :=
  slots <- all_slots availabilities ;;
  py_max_key (coverage availabilities) slots.

Definition at_minute (m : Z) : instant := timedelta_minutes m.

(** Scenario A: A 09:00-10:00, B 09:30-10:30, C 09:00-09:30. *)
Definition scenario_a : list window :=
  [ mkWindow "A" (at_minute 540) (at_minute 600);
    mkWindow "B" (at_minute 570) (at_minute 630);
    mkWindow "C" (at_minute 540) (at_minute 570) ].

(** ** A reference instance of [fromisoformat] and [isoformat]

    [select_time] is defined below for any pair of conversions between
    stored strings and instants.  This instance follows [datetime.py] for
    the layout [YYYY-MM-DDTHH:MM:SS] that [parse_datetime] produces; it is
    what the worked examples run on. *)

Module Iso.

Definition is_leap (y : Z) : bool :=
  ((y mod 4 =? 0) && negb (y mod 100 =? 0)) || (y mod 400 =? 0).

Definition days_before_year (y : Z) : Z :=
  let p := y - 1 in p * 365 + p / 4 - p / 100 + p / 400.

Definition days_in_month (y m : Z) : Z :=
  if m =? 2 then (if is_leap y then 29 else 28)
  else if (m =? 4) || (m =? 6) || (m =? 9) || (m =? 11) then 30 else 31.

Definition days_before_month (y m : Z) : Z :=
  nth (Z.to_nat m) [0; 0; 31; 59; 90; 120; 151; 181; 212; 243; 273; 304; 334] 0
  + (if (m >? 2) && is_leap y then 1 else 0).

Definition ymd2ord (y m d : Z) : Z :=
  days_before_year y + days_before_month y m + d.

Definition ord2ymd (ordinal : Z) : Z * Z * Z :=
  let n := ordinal - 1 in
  let n400 := n / 146097 in let n := n mod 146097 in
  let n100 := n / 36524 in let n := n mod 36524 in
  let n4 := n / 1461 in let n := n mod 1461 in
  let n1 := n / 365 in let n := n mod 365 in
  let y := n400 * 400 + 1 + n100 * 100 + n4 * 4 + n1 in
  if (n1 =? 4) || (n100 =? 4) then (y - 1, 12, 31)
  else
    let leapyear := (n1 =? 3) && (negb (n4 =? 24) || (n100 =? 3)) in
    let m := Z.shiftr (n + 50) 5 in
    let preceding :=
      days_before_month 1 m + (if (m >? 2) && leapyear then 1 else 0) in
    if preceding >? n
    then
      let m' := m - 1 in
      let preceding' :=
        preceding
        - (days_in_month 1 m' + (if (m' =? 2) && leapyear then 1 else 0)) in
      (y, m', n - preceding' + 1)
    else (y, m, n - preceding + 1).

(** Exactly [count] decimal digits. *)
Fixpoint digits (count : nat) (acc : Z) (s : string) : option (Z * string) :=
  match count with
  | O => Some (acc, s)
  | S count' =>
      match s with
      | String c rest =>
          match Strptime.digit_of c with
          | Some d => digits count' (10 * acc + Z.of_nat d) rest
          | None => None
          end
      | EmptyString => None
      end
  end.

Definition sep (c : ascii) (s : string) : option string :=
  match s with
  | String d rest => if Ascii.eqb c d then Some rest else None
  | EmptyString => None
  end.

Definition opt_bind {A B} (o : option A) (k : A -> option B) : option B :=
  match o with Some a => k a | None => None end.

Definition fields (s : string) : option (Z * Z * Z * Z * Z * Z) :=
  opt_bind (digits 4 0 s) (fun '(y, s) => opt_bind (sep "-" s) (fun s =>
  opt_bind (digits 2 0 s) (fun '(m, s) => opt_bind (sep "-" s) (fun s =>
  opt_bind (digits 2 0 s) (fun '(d, s) => opt_bind (sep "T" s) (fun s =>
  opt_bind (digits 2 0 s) (fun '(H, s) => opt_bind (sep ":" s) (fun s =>
  opt_bind (digits 2 0 s) (fun '(M, s) => opt_bind (sep ":" s) (fun s =>
  opt_bind (digits 2 0 s) (fun '(sec, s) =>
  if PyStr.is_empty s then Some (y, m, d, H, M, sec) else None))))))))))).

Definition fromisoformat (s : string) : result instant :=
  match fields s with
  | Some (y, m, d, H, M, sec) =>
      if (1 <=? y) && (1 <=? m) && (m <=? 12) && (1 <=? d)
         && (d <=? days_in_month y m) && (H <? 24) && (M <? 60) && (sec <? 60)
      then Ok (((((ymd2ord y m d - 1) * 24 + H) * 60 + M) * 60 + sec) * 1000000)
      else Raise (ValueError "Invalid isoformat string")
  | None => Raise (ValueError "Invalid isoformat string")
  end.

Definition pad2 (n : Z) : string := Strptime.pad2 (Z.to_nat n).
Definition pad4 (n : Z) : string := Strptime.pad4 (Z.to_nat n).

Definition isoformat (t : instant) : string :=
  let us := t mod 1000000 in
  let secs := t / 1000000 in
  let '(y, m, d) := ord2ymd (secs / 86400 + 1) in
  let r := secs mod 86400 in
  (pad4 y ++ "-" ++ pad2 m ++ "-" ++ pad2 d ++ "T"
   ++ pad2 (r / 3600) ++ ":" ++ pad2 (r mod 3600 / 60) ++ ":" ++ pad2 (r mod 60)
   ++ (if (us =? 0)%Z then "" else "." ++ pad2 (us / 10000) ++ pad4 (us mod 10000))
  )%string.

End Iso.

(** ** [select_time], [update_event_time], [find_best_time], [lambda_handler] *)

(** The invocation the agent runtime passes in; a field is [None] when the
    key is absent.  Parameter items are (name, value) pairs. *)
Record lambda_event : Type := mkLambdaEvent {
  actionGroup : option string;
  function : option string;
  parameters : option (list (string * string));
  messageVersion : option string
}.

(** The text of the response body: [json.dumps] of an action's value, or a
    fixed sentence. *)
Inductive body : Type :=
| Dumped (r : response)
| Plain (s : string).

Record function_response : Type := mkFunctionResponse {
  fr_actionGroup : string;
  fr_function : string;
  fr_responseBody : body;          (* under "TEXT" / "body" *)
  fr_messageVersion : string
}.

(** [json.dumps]: a dict of strings is serialised, a set is refused. *)
Definition json_dumps (r : response) : result body :=
  match r with
  | ErrorSet _ _ => Raise (TypeError "Object of type set is not JSON serializable")
  | _ => Ok (Dumped r)
  end.

(** Names bound at module level in [lambda_function.py]. *)
Definition module_globals : list string :=
  [ "os"; "json"; "create_client"; "Client"; "datetime"; "timedelta";
    "url"; "key"; "supabase"; "get_named_parameter"; "create_event";
    "parse_datetime"; "rsvp"; "select_time"; "update_event_time";
    "find_best_time"; "lambda_handler" ]%string.

(** Reading a name that is not a local of the running function. *)
Definition load_global (name : string) : result unit :=
  if existsb (String.eqb name) module_globals then Ok tt
  else Raise (NameError name).

(** [get_named_parameter] *)
Definition get_named_parameter (event : lambda_event) (name : string)
    : result string :=
  match parameters event with
  | None => Raise (KeyError "parameters")
  | Some items =>
      match find (fun item => String.eqb (fst item) name) items with
      | Some item => Ok (snd item)
      | None => Raise StopIteration
      end
  end.

(** [update_event_time] *)
Definition update_event_time (faults : store_faults)
    (event_id confirmed_time : string) (db : database)
    : response * database :=
  match faults (UpdateConfirmedTimeStmt event_id confirmed_time) with
  | Some e => (Error "" e, db)
  | None =>
      (Message "Event time updated successfully",
       Store.update_confirmed_time event_id confirmed_time db)
  end.

Section Handler.

(** [datetime.fromisoformat] on a stored string and [datetime.isoformat] on
    an instant. *)
Variable fromisoformat : string -> result instant.
Variable isoformat : instant -> string.

(** Which store calls of the request raise. *)
Variable faults : store_faults.

(** Lines 107-109: both times of every row are converted, in order. *)
Fixpoint convert (rows : list availability_row) : result (list window) :=
  match rows with
  | [] => Ok []
  | row :: rest =>
      s <- fromisoformat (av_startTime row) ;;
      e <- fromisoformat (av_endTime row) ;;
      ws <- convert rest ;;
      Ok (mkWindow (av_userID row) s e :: ws)
  end.

(** The body of the [try] of [select_time]. *)
Definition select_time_try (event_id : string) (db : database)
    : result (option string) :=
  match faults (SelectAvailabilitiesStmt event_id) with
  | Some e => Raise e
  | None =>
      match Store.select_availabilities event_id db with
      | [] => Ok None
      | rows =>
          availabilities <- convert rows ;;
          best <- best_slot availabilities ;;
          Ok (Some (isoformat (fst best)))
      end
  end.

(** [select_time]: any exception is reported as [None]. *)
Definition select_time (event_id : string) (db : database) : option string :=
  match select_time_try event_id db with
  | Ok r => r
  | Raise _ => None
  end.

(** [find_best_time]; [if best_time:] holds for a non-empty string. *)
Definition find_best_time (event_id : string) (db : database)
    : response * database :=
  match select_time event_id db with
  | Some best_time =>
      if PyStr.truthy best_time
      then update_event_time faults event_id best_time db
      else (ErrorText "Unable to find a suitable time", db)
  | None => (ErrorText "Unable to find a suitable time", db)
  end.

Definition missing_parameters : body := Plain "Missing required parameters".

(** The [if / elif / else] chain of [lambda_handler]: the response body, or
    the exception that leaves the handler, and the store afterwards. *)
Definition dispatch (event : lambda_event) (fn : string) (db : database)
    : result body * database :=
  if String.eqb fn "create_event" then
    match get_named_parameter event "group_id" with
    | Raise e => (Raise e, db)
    | Ok group_id =>
    match get_named_parameter event "period" with
    | Raise e => (Raise e, db)
    | Ok period =>
    match get_named_parameter event "description" with
    | Raise e => (Raise e, db)
    | Ok description =>
        if PyStr.truthy group_id && PyStr.truthy period
           && PyStr.truthy description
        then let (r, db') :=
               create_event faults group_id period description db in
             (json_dumps r, db')
        else (Ok missing_parameters, db)
    end end end
  else if String.eqb fn "rsvp" then
    match get_named_parameter event "user_id" with
    | Raise e => (Raise e, db)
    | Ok user_id =>
    match get_named_parameter event "event_id" with
    | Raise e => (Raise e, db)
    | Ok event_id =>
    match get_named_parameter event "availiable_time" with
    | Raise e => (Raise e, db)
    | Ok availiable_time =>
        (* user_id and event_id and start_time and end_time *)
        if PyStr.truthy user_id && PyStr.truthy event_id then
          match load_global "start_time" with
          | Raise e => (Raise e, db)
          | Ok _ =>
              match load_global "end_time" with
              | Raise e => (Raise e, db)
              | Ok _ =>
                  let (r, db') := rsvp user_id event_id availiable_time db in
                  (json_dumps r, db')
              end
          end
        else (Ok missing_parameters, db)
    end end end
  else if String.eqb fn "find_best_time`" then
    match get_named_parameter event "event_id" with
    | Raise e => (Raise e, db)
    | Ok event_id =>
        if PyStr.truthy event_id
        then let (r, db') := find_best_time event_id db in (json_dumps r, db')
        else (Ok (Plain "Missing event_id parameter"), db)
    end
  else (Ok (Plain "Invalid function"), db).

Definition get_default (o : option string) : string :=
  match o with Some s => s | None => EmptyString end.

(** [lambda_handler] *)
Definition lambda_handler (event : lambda_event) (db : database)
    : result function_response * database :=
  let action_group := get_default (actionGroup event) in
  let fn := get_default (function event) in
  match dispatch event fn db with
  | (Raise e, db') => (Raise e, db')
  | (Ok response_body, db') =>
      match messageVersion event with
      | None => (Raise (KeyError "messageVersion"), db')
      | Some v => (Ok (mkFunctionResponse action_group fn response_body v), db')
      end
  end.

End Handler.

(** ** Worked runs on the reference conversions *)

Definition handler := lambda_handler Iso.fromisoformat Iso.isoformat no_faults.
Definition finalize := find_best_time Iso.fromisoformat Iso.isoformat no_faults.

Definition scenario_a_db : database :=
  mkDatabase
    [ mkEvent "e1" "g1" "2024-07-01 to 2024-07-07" "standup" None ]
    [ mkAvailability "A" "e1" "2024-07-01T09:00:00" "2024-07-01T10:00:00";
      mkAvailability "B" "e1" "2024-07-01T09:30:00" "2024-07-01T10:30:00";
      mkAvailability "C" "e1" "2024-07-01T09:00:00" "2024-07-01T09:30:00" ]
    1 [].

(** A request for the [rsvp] action with all three parameters present and
    non-empty. *)
Definition rsvp_request : lambda_event :=
  mkLambdaEvent (Some "scheduler") (Some "rsvp")
    (Some [ ("user_id", "u1"); ("event_id", "e1");
            ("availiable_time", "start:24-07-01:09-00 end:24-07-01:10-00") ]%string)
    (Some "1.0").


(** One availability in the last half hour of year 9999. *)
Definition last_half_hour_db : database :=
  mkDatabase
    [ mkEvent "e1" "g1" "9999-12-31" "new year" None ]
    [ mkAvailability "A" "e1" "9999-12-31T23:40:00" "9999-12-31T23:50:00" ]
    1 [].

Definition last_half_hour : list window :=
  [ mkWindow "A" 315537896400000000 315537897000000000 ].

(** ** The specification's vocabulary

    These definitions follow the words of the specification, not the code;
    the theorems below compare the code with them. *)

(** A window fully contains a slot:
    [window.start <= slot.start AND window.end >= slot.end]. *)
Definition fully_contains (w : window) (s : slot) : Prop :=
  startTime w <= fst s /\ endTime w >= snd s.

Definition fully_contains_dec (w : window) (s : slot)
    : {fully_contains w s} + {~ fully_contains w s}.
Proof.
  unfold fully_contains.
  destruct (Z_le_dec (startTime w) (fst s));
    destruct (Z_ge_dec (endTime w) (snd s)); (left; lia) || (right; lia).
Defined.

(** The number of windows that fully contain the slot. *)
Fixpoint containing_count (ws : list window) (s : slot) : nat :=
  match ws with
  | [] => O
  | w :: rest =>
      ((if fully_contains_dec w s then 1 else 0) + containing_count rest s)%nat
  end.

(** [ceil(a / b)] for a positive [b]. *)
Definition ceil_div (a b : Z) : Z := - ((- a) / b).

(** Slot [k] of the span that starts at [global_start]:
    [[global_start + k*W, global_start + (k+1)*W)]. *)
Definition slot_at (global_start : instant) (k : nat) : slot :=
  (global_start + Z.of_nat k * thirty_minutes,
   global_start + (Z.of_nat k + 1) * thirty_minutes).

(** The slots of the span [[global_start, global_end)], in order. *)
Definition spec_slots (global_start global_end : instant) : list slot :=
  map (slot_at global_start)
      (seq 0 (Z.to_nat (ceil_div (global_end - global_start) thirty_minutes))).

(** Slots in chronological order. *)
Definition chronological (slots : list slot) : Prop :=
  StronglySorted (fun a b : slot => fst a < fst b) slots.

(** * Worked examples *)

Example parse_datetime_start :
  parse_datetime "start:24-07-01:09-00" = Ok "2024-07-01T09:00:00".
Proof. reflexivity. Qed.

Example parse_datetime_bare :
  parse_datetime "99-12-31:23-59" = Ok "1999-12-31T23:59:00".
Proof. reflexivity. Qed.

Example parse_datetime_end :
  raises (parse_datetime "end:24-07-01:10-00") = true.
Proof. reflexivity. Qed.

Example parse_datetime_feb30 :
  parse_datetime "24-02-30:10-00"
  = Raise (ValueError "day is out of range for month").
Proof. reflexivity. Qed.

Example parse_datetime_minute60 :
  parse_datetime "24-02-03:10-60" = Raise (ValueError "unconverted data remains").
Proof. reflexivity. Qed.

Example split_example :
  PyStr.split "  start:24-07-01:09-00   end:24-07-01:10-00 "
  = ["start:24-07-01:09-00"; "end:24-07-01:10-00"].
Proof. reflexivity. Qed.

Example rsvp_one_pair :
  rsvp "u1" "e1" "start:24-07-01:09-00 end:24-07-01:10-00" empty_db
  = (ErrorSet "error: " (UnboundLocalError "start_time"), empty_db).
Proof. reflexivity. Qed.

Example rsvp_one_token :
  rsvp "u1" "e1" "start:24-07-01:09-00" empty_db
  = (Error "Malformed available time data!"
       (ValueError "time data does not match format"), empty_db).
Proof. reflexivity. Qed.

Example rsvp_empty :
  rsvp "u1" "e1" "" empty_db
  = (Error "Malformed available time data!"
       (IndexError "string index out of range"), empty_db).
Proof. reflexivity. Qed.

Example slots_example :
  slots_loop (at_minute 540) (at_minute 605) []
  = Ok [(at_minute 540, at_minute 570); (at_minute 570, at_minute 600);
        (at_minute 600, at_minute 630)].
Proof. reflexivity. Qed.

Example scenario_a_coverages :
  match all_slots scenario_a with
  | Ok slots => map (coverage scenario_a) slots
  | Raise _ => []
  end = [2; 2; 1].
Proof. reflexivity. Qed.

Example scenario_a_best :
  best_slot scenario_a = Ok (at_minute 540, at_minute 570).
Proof. reflexivity. Qed.

Example scenario_a_best_reversed :
  best_slot (rev scenario_a) = Ok (at_minute 540, at_minute 570).
Proof. reflexivity. Qed.

Example fromisoformat_example :
  Iso.fromisoformat "2024-07-01T09:00:00" = Ok 63855421200000000.
Proof. reflexivity. Qed.

Example isoformat_example :
  Iso.isoformat 63855421200000000 = "2024-07-01T09:00:00"%string.
Proof. reflexivity. Qed.

Example isoformat_datetime_max :
  Iso.isoformat datetime_max = "9999-12-31T23:59:59.999999"%string.
Proof. vm_compute. reflexivity. Qed.

Example select_time_store_failure :
  select_time Iso.fromisoformat Iso.isoformat
    (fun _ => Some (ValueError "connection reset")) "e1" scenario_a_db
  = None.
Proof. vm_compute. reflexivity. Qed.

Example create_event_store_failure :
  create_event (fun _ => Some (ValueError "connection reset"))
    "g1" "July" "standup" empty_db
  = (Error "" (ValueError "connection reset"), empty_db).
Proof. reflexivity. Qed.

Example isoformat_leap_day :
  option_map Iso.isoformat
    (match Iso.fromisoformat "2024-02-29T23:30:00" with
     | Ok t => Some (t + thirty_minutes) | Raise _ => None end)
  = Some "2024-03-01T00:00:00"%string.
Proof. reflexivity. Qed.

Example scenario_a_select :
  select_time Iso.fromisoformat Iso.isoformat no_faults "e1" scenario_a_db
  = Some "2024-07-01T09:00:00"%string.
Proof. vm_compute. reflexivity. Qed.

Example scenario_a_finalize :
  finalize "e1" scenario_a_db
  = (Message "Event time updated successfully",
     mkDatabase
       [ mkEvent "e1" "g1" "2024-07-01 to 2024-07-07" "standup"
                 (Some "2024-07-01T09:00:00"%string) ]
       (availabilities scenario_a_db) 1
       [ UpdateConfirmedTime "e1" "2024-07-01T09:00:00" ]).
Proof. vm_compute. reflexivity. Qed.

Example scenario_b_finalize :
  finalize "e2" scenario_a_db
  = (ErrorText "Unable to find a suitable time", scenario_a_db).
Proof. vm_compute. reflexivity. Qed.

Example full_containment_example :
  let w := mkWindow "A" (at_minute 540) (at_minute 600) in
  map (fun s => covers s w)
    [ (at_minute 540, at_minute 570); (at_minute 570, at_minute 600);
      (at_minute 510, at_minute 540); (at_minute 585, at_minute 615) ]
  = [true; true; false; false].
Proof. reflexivity. Qed.

Example handler_create_event :
  handler
    (mkLambdaEvent (Some "scheduler") (Some "create_event")
       (Some [ ("group_id", "g1"); ("period", "2024-07-01 to 2024-07-07");
               ("description", "standup") ]%string)
       (Some "1.0"))
    empty_db
  = (Ok (mkFunctionResponse "scheduler" "create_event"
           (Dumped (EventID "0")) "1.0"),
     mkDatabase
       [ mkEvent "0" "g1" "2024-07-01 to 2024-07-07" "standup" None ] [] 1
       [ InsertEvent (mkEvent "0" "g1" "2024-07-01 to 2024-07-07" "standup" None) ]).
Proof. vm_compute. reflexivity. Qed.

Example handler_rsvp_missing_user :
  handler
    (mkLambdaEvent (Some "scheduler") (Some "rsvp")
       (Some [ ("user_id", ""); ("event_id", "e1");
               ("availiable_time", "start:24-07-01:09-00") ]%string)
       (Some "1.0"))
    empty_db
  = (Ok (mkFunctionResponse "scheduler" "rsvp" missing_parameters "1.0"),
     empty_db).
Proof. vm_compute. reflexivity. Qed.

Example handler_rsvp_absent_parameter :
  handler
    (mkLambdaEvent (Some "scheduler") (Some "rsvp")
       (Some [ ("user_id", "u1") ]%string) (Some "1.0"))
    empty_db
  = (Raise StopIteration, empty_db).
Proof. vm_compute. reflexivity. Qed.

(** * Properties of [rsvp] *)

Section RsvpFacts.

Local Open Scope nat_scope.

Lemma lstrip_length : forall chars s,
  String.length (PyStr.lstrip chars s) <= String.length s.
Proof.
  intros chars s. induction s as [|c rest IH]; simpl.
  - lia.
  - destruct (PyStr.mem c chars); simpl; lia.
Qed.

(** The year alone needs two digits. *)
Lemma re_y_short : forall s, String.length s <= 1 -> Strptime.re_y s = [].
Proof.
  intros s Hlen. destruct s as [|c [|d rest]]; simpl in Hlen; try lia.
  - reflexivity.
  - unfold Strptime.re_y, Strptime.two, Strptime.bind, Strptime.digit.
    destruct (Strptime.digit_of c); reflexivity.
Qed.

Lemma format_regex_short : forall s,
  String.length s <= 1 -> Strptime.format_regex s = [].
Proof.
  intros s Hlen. unfold Strptime.format_regex.
  unfold Strptime.bind at 1. rewrite (re_y_short s Hlen). reflexivity.
Qed.

Lemma strptime_short : forall s,
  String.length s <= 1 ->
  Strptime.strptime s = Raise (ValueError "time data does not match format").
Proof.
  intros s Hlen. unfold Strptime.strptime.
  rewrite (format_regex_short s Hlen). reflexivity.
Qed.

Lemma parse_datetime_short : forall s,
  String.length s <= 1 ->
  parse_datetime s = Raise (ValueError "time data does not match format").
Proof.
  intros s Hlen. unfold parse_datetime.
  rewrite strptime_short; [reflexivity|].
  pose proof (lstrip_length "start:" s). lia.
Qed.

(** One turn of the loop never survives its first [parse_datetime]: the
    argument is a single character, or the index is out of range. *)
Lemma rsvp_body_returns : forall s i locals,
  exists e, rsvp_body s i locals = Returned (Error "Malformed available time data!" e).
Proof.
  intros s i locals. unfold rsvp_body, PyStr.getitem.
  destruct (String.get i s) as [c|].
  - rewrite parse_datetime_short by (simpl; lia). eauto.
  - eauto.
Qed.

Lemma rsvp_loop_returns : forall s i rest locals,
  exists e,
    rsvp_loop s (i :: rest) locals
    = Returned (Error "Malformed available time data!" e).
Proof.
  intros s i rest locals. simpl.
  destruct (rsvp_body_returns s i locals) as [e ->]. eauto.
Qed.

Lemma range_two_empty : forall n, 2 <= n -> PyStr.range n 2 = [].
Proof.
  intros n Hn. unfold PyStr.range.
  replace (2 - n) with 0 by lia. reflexivity.
Qed.

Lemma range_two_cons : forall n, n < 2 -> exists rest, PyStr.range n 2 = n :: rest.
Proof.
  intros n Hn. unfold PyStr.range.
  destruct (2 - n) as [|k] eqn:E; [lia|]. simpl. eauto.
Qed.

(** What [rsvp] returns, by the number of tokens of the submission. *)
Lemma rsvp_cases : forall user_id event_id availiable_time db,
  exists e,
    rsvp user_id event_id availiable_time db
    = (if 2 <=? List.length (PyStr.split availiable_time)
       then ErrorSet "error: " (UnboundLocalError "start_time")
       else Error "Malformed available time data!" e,
       db).
Proof.
  intros user_id event_id s db. unfold rsvp.
  destruct (2 <=? List.length (PyStr.split s)) eqn:E.
  - apply Nat.leb_le in E. rewrite (range_two_empty _ E). simpl.
    exists StopIteration. reflexivity.
  - apply Nat.leb_gt in E. destruct (range_two_cons _ E) as [rest ->].
    destruct (rsvp_loop_returns s (List.length (PyStr.split s)) rest (None, None))
      as [e ->].
    exists e. reflexivity.
Qed.

End RsvpFacts.

(** C9.  For every input string, [rsvp] leaves the store as it was (so no
    availability record is inserted) and returns an error value: with two
    or more tokens the loop is empty and the unbound [start_time] yields
    the error set; with fewer than two tokens the loop indexes single
    characters of the raw string and the first [parse_datetime] fails. *)
Theorem rsvp_never_records : forall user_id event_id availiable_time db,
  exists e,
    rsvp user_id event_id availiable_time db
    = (if (2 <=? List.length (PyStr.split availiable_time))%nat
       then ErrorSet "error: " (UnboundLocalError "start_time")
       else Error "Malformed available time data!" e,
       db)
    /\ is_error (fst (rsvp user_id event_id availiable_time db)) = true
    /\ availabilities (snd (rsvp user_id event_id availiable_time db))
       = availabilities db
    /\ journal (snd (rsvp user_id event_id availiable_time db)) = journal db.
Proof.
  intros user_id event_id s db.
  destruct (rsvp_cases user_id event_id s db) as [e He].
  exists e. rewrite He. repeat split.
  destruct (2 <=? List.length (PyStr.split s))%nat; reflexivity.
Qed.

(** C1 (the code departs from it).  A submission of one well-formed
    start/end pair: both tokens are read by [split], yet [rsvp] stores
    nothing and answers with the error set.  The second token would not
    parse either: [lstrip("start:")] leaves the [end:] label in place. *)
Theorem rsvp_valid_pair_not_stored :
  PyStr.split "start:24-07-01:09-00 end:24-07-01:10-00"
  = ["start:24-07-01:09-00"; "end:24-07-01:10-00"]%string
  /\ rsvp "u1" "e1" "start:24-07-01:09-00 end:24-07-01:10-00" empty_db
     = (ErrorSet "error: " (UnboundLocalError "start_time"), empty_db)
  /\ availabilities
       (snd (rsvp "u1" "e1" "start:24-07-01:09-00 end:24-07-01:10-00" empty_db))
     = []
  /\ raises (parse_datetime "end:24-07-01:10-00") = true.
Proof. repeat split. Qed.

(** C7 (the code departs from it).  Three submissions that must fail
    with the malformed-input error (three tokens; two tokens with a month
    13; an end before its start) never reach the inner handler that
    returns "Malformed available time data!": the loop over
    [range(len(tokens), 2)] is empty, and each gets the error set of the
    outer handler, as a well-formed pair does.  Nothing is stored. *)
Lemma rsvp_malformed_not_reported :
  (List.length (PyStr.split "start:24-07-01:09-00 end:24-07-01:10-00 start:24-07-02:09-00") = 3)%nat
  /\ is_malformed_error
       (fst (rsvp "u1" "e1"
               "start:24-07-01:09-00 end:24-07-01:10-00 start:24-07-02:09-00"
               empty_db)) = false
  /\ raises (parse_datetime "start:24-13-01:09-00") = true
  /\ is_malformed_error
       (fst (rsvp "u1" "e1" "start:24-13-01:09-00 end:24-07-01:10-00" empty_db))
     = false
  /\ is_malformed_error
       (fst (rsvp "u1" "e1" "start:24-07-01:10-00 end:24-07-01:09-00" empty_db))
     = false
  /\ rsvp "u1" "e1" "start:24-13-01:09-00 end:24-07-01:10-00" empty_db
     = (ErrorSet "error: " (UnboundLocalError "start_time"), empty_db).
Proof. repeat split. Qed.

(** * Properties of the dispatcher *)

(** C8 (the code departs from it).  With every parameter present and
    non-empty the presence check reads [start_time], which is bound
    neither in [lambda_handler] nor at module level: the handler leaves
    with [NameError] and [rsvp] is never called.  The sibling check of the
    [create_event] action reads only its own three parameters. *)
Theorem rsvp_request_raises_name_error :
  forall fromisoformat isoformat faults db,
    load_global "start_time" = Raise (NameError "start_time")
    /\ lambda_handler fromisoformat isoformat faults rsvp_request db
       = (Raise (NameError "start_time"), db).
Proof. intros. split; reflexivity. Qed.

(** C10.  A request whose [function] is exactly ["find_best_time"] gets
    the "Invalid function" body and the store is untouched; the finalize
    branch answers only to the name with a trailing backtick. *)
Theorem find_best_time_name_is_invalid :
  forall fromisoformat isoformat faults action_group params version event_id db,
    lambda_handler fromisoformat isoformat faults
      (mkLambdaEvent action_group (Some "find_best_time") params (Some version))
      db
    = (Ok (mkFunctionResponse (get_default action_group) "find_best_time"
             (Plain "Invalid function") version), db)
    /\ dispatch fromisoformat isoformat faults
         (mkLambdaEvent action_group (Some "find_best_time`")
            (Some [("event_id", String "e" event_id)]%string) (Some version))
         "find_best_time`" db
       = (json_dumps (fst (find_best_time fromisoformat isoformat faults
                             (String "e" event_id) db)),
          snd (find_best_time fromisoformat isoformat faults (String "e" event_id) db)).
Proof.
  intros. split; [reflexivity|].
  unfold dispatch. simpl String.eqb. cbv iota.
  unfold get_named_parameter. simpl.
  destruct (find_best_time fromisoformat isoformat faults (String "e" event_id) db).
  reflexivity.
Qed.

(** * Properties of [find_best_time] *)

Section UpdateFacts.

Lemma set_confirmed_id : forall event_id t r,
  ev_eventID (Store.set_confirmed event_id t r) = ev_eventID r.
Proof.
  intros event_id t r. unfold Store.set_confirmed.
  destruct (String.eqb (ev_eventID r) event_id); reflexivity.
Qed.

Lemma find_set_confirmed : forall event_id t k rows,
  find (fun r => String.eqb (ev_eventID r) k)
       (map (Store.set_confirmed event_id t) rows)
  = option_map (Store.set_confirmed event_id t)
      (find (fun r => String.eqb (ev_eventID r) k) rows).
Proof.
  intros event_id t k rows. induction rows as [|r rows IH]; [reflexivity|].
  cbn [map find]. rewrite set_confirmed_id.
  destruct (String.eqb (ev_eventID r) k); [reflexivity | exact IH].
Qed.

Lemma update_lookup_same : forall event_id t db,
  In event_id (map ev_eventID (events db)) ->
  Store.confirmed_time_of event_id (Store.update_confirmed_time event_id t db)
  = Some t.
Proof.
  intros event_id t db Hin. unfold Store.confirmed_time_of.
  cbn [Store.update_confirmed_time events]. rewrite find_set_confirmed.
  destruct (find (fun r => String.eqb (ev_eventID r) event_id) (events db))
    as [r|] eqn:E.
  - apply find_some in E. destruct E as [_ Heq].
    cbn [option_map]. unfold Store.set_confirmed. rewrite Heq. reflexivity.
  - apply in_map_iff in Hin. destruct Hin as [r [Hid Hr]].
    pose proof (find_none _ _ E _ Hr) as Hf. cbv beta in Hf.
    rewrite Hid, String.eqb_refl in Hf. discriminate.
Qed.

Lemma update_lookup_other : forall event_id other t db,
  other <> event_id ->
  Store.confirmed_time_of other (Store.update_confirmed_time event_id t db)
  = Store.confirmed_time_of other db.
Proof.
  intros event_id other t db Hne. unfold Store.confirmed_time_of.
  cbn [Store.update_confirmed_time events]. rewrite find_set_confirmed.
  destruct (find (fun r => String.eqb (ev_eventID r) other) (events db))
    as [r|] eqn:E; [|reflexivity].
  apply find_some in E. destruct E as [_ Heq]. apply String.eqb_eq in Heq.
  cbn [option_map]. unfold Store.set_confirmed.
  assert (Hf : String.eqb (ev_eventID r) event_id = false)
    by (apply String.eqb_neq; congruence).
  rewrite Hf. reflexivity.
Qed.

Lemma update_ids : forall event_id t rows,
  map ev_eventID (map (Store.set_confirmed event_id t) rows)
  = map ev_eventID rows.
Proof.
  intros event_id t rows. rewrite map_map. apply map_ext.
  intros r. apply set_confirmed_id.
Qed.

End UpdateFacts.

Section FinalizeFacts.

Variable fromisoformat : string -> result instant.
Variable isoformat : instant -> string.
Variable faults : store_faults.

Let select_time' := select_time fromisoformat isoformat faults.
Let find_best_time' := find_best_time fromisoformat isoformat faults.



(** [select_time] on rows that convert: the start of the best slot. *)
Lemma select_time_best_slot : forall event_id db row rows ws,
  faults (SelectAvailabilitiesStmt event_id) = None ->
  Store.select_availabilities event_id db = row :: rows ->
  convert fromisoformat (row :: rows) = Ok ws ->
  select_time' event_id db
  = match best_slot ws with
    | Ok best => Some (isoformat (fst best))
    | Raise _ => None
    end.
Proof.
  intros event_id db row rows ws Hf Hsel Hconv.
  unfold select_time', select_time, select_time_try.
  rewrite Hf, Hsel, Hconv. cbn [bind_result].
  destruct (best_slot ws); reflexivity.
Qed.



(** The three outcomes of [find_best_time]: no time to confirm, an update
    that raised, an update that was executed. *)
Lemma find_best_time_cases : forall event_id db,
  (find_best_time' event_id db = (ErrorText "Unable to find a suitable time", db))
  \/ (exists t e, select_time' event_id db = Some t /\ PyStr.truthy t = true
        /\ faults (UpdateConfirmedTimeStmt event_id t) = Some e
        /\ find_best_time' event_id db = (Error "" e, db))
  \/ (exists t, select_time' event_id db = Some t /\ PyStr.truthy t = true
        /\ faults (UpdateConfirmedTimeStmt event_id t) = None
        /\ find_best_time' event_id db
           = (Message "Event time updated successfully",
              Store.update_confirmed_time event_id t db)).
Proof.
  intros event_id db.
  unfold find_best_time', select_time', find_best_time, update_event_time.
  destruct (select_time fromisoformat isoformat faults event_id db) as [t|];
    [|left; reflexivity].
  destruct (PyStr.truthy t) eqn:E; [|left; reflexivity].
  destruct (faults (UpdateConfirmedTimeStmt event_id t)) as [e|] eqn:Ef.
  - right. left. exists t, e. auto.
  - right. right. exists t. auto.
Qed.

Lemma confirmations_update : forall event_id t db,
  Store.confirmations event_id (Store.update_confirmed_time event_id t db)
  = S (Store.confirmations event_id db).
Proof.
  intros event_id t db. unfold Store.confirmations. simpl.
  rewrite String.eqb_refl. reflexivity.
Qed.

End FinalizeFacts.

(** C6.  Finalizing an event that has no recorded availability returns the
    error value "Unable to find a suitable time" and leaves the store as
    it was: no confirmed-time write, the event stays open. *)
Theorem find_best_time_without_availability :
  forall fromisoformat isoformat faults event_id db,
    Store.select_availabilities event_id db = [] ->
    find_best_time fromisoformat isoformat faults event_id db
    = (ErrorText "Unable to find a suitable time", db)
    /\ is_error (fst (find_best_time fromisoformat isoformat faults event_id db)) = true.
Proof.
  intros fromisoformat isoformat faults event_id db H.
  unfold find_best_time, select_time, select_time_try. rewrite H.
  destruct (faults (SelectAvailabilitiesStmt event_id)); split; reflexivity.
Qed.

Lemma find_best_time_without_availability_witness :
  finalize "e2" scenario_a_db
  = (ErrorText "Unable to find a suitable time", scenario_a_db)
  /\ is_error (fst (finalize "e2" scenario_a_db)) = true.
Proof.
  apply (find_best_time_without_availability
           Iso.fromisoformat Iso.isoformat no_faults "e2" scenario_a_db).
  reflexivity.
Defined.




(** * Properties of the aggregation *)

Section CoverageFacts.

Lemma fold_add_ones : forall (A : Type) (l : list A) (acc : Z),
  fold_left Z.add (map (fun _ => 1) l) acc = acc + Z.of_nat (List.length l).
Proof.
  intros A l. induction l as [|x l IH]; intros acc.
  - simpl. lia.
  - cbn [map fold_left List.length]. rewrite IH. lia.
Qed.

Lemma covers_true_iff : forall s w, covers s w = true <-> fully_contains w s.
Proof.
  intros s w. unfold covers, fully_contains.
  rewrite andb_true_iff, Z.leb_le, Z.geb_le. lia.
Qed.

Lemma containing_count_filter : forall ws s,
  containing_count ws s = List.length (filter (covers s) ws).
Proof.
  intros ws s. induction ws as [|w ws IH]; [reflexivity|].
  cbn [containing_count filter].
  destruct (fully_contains_dec w s) as [Hc | Hc];
    destruct (covers s w) eqn:E; cbn [List.length]; rewrite IH; try lia.
  - apply covers_true_iff in Hc. congruence.
  - apply covers_true_iff in E. contradiction.
Qed.

Lemma coverage_containing_count : forall ws s,
  coverage ws s = Z.of_nat (containing_count ws s).
Proof.
  intros ws s. unfold coverage.
  rewrite fold_add_ones, containing_count_filter. lia.
Qed.

Lemma containing_count_app : forall ws1 ws2 s,
  containing_count (ws1 ++ ws2) s
  = (containing_count ws1 s + containing_count ws2 s)%nat.
Proof.
  intros ws1 ws2 s. induction ws1 as [|w ws1 IH]; [reflexivity|].
  cbn [app containing_count]. rewrite IH. lia.
Qed.

Lemma containing_count_perm : forall ws ws' s,
  Permutation ws ws' -> containing_count ws' s = containing_count ws s.
Proof.
  intros ws ws' s H. induction H; cbn [containing_count]; lia.
Qed.

Lemma coverage_perm : forall ws ws' s,
  Permutation ws ws' -> coverage ws' s = coverage ws s.
Proof.
  intros ws ws' s H. rewrite !coverage_containing_count.
  rewrite (containing_count_perm ws ws' s H). reflexivity.
Qed.

End CoverageFacts.

(** C4.  The coverage the code computes for a slot is the number of
    windows that fully contain it; a window adds one to the count when it
    fully contains the slot and nothing otherwise, wherever it stands in
    the list, so a window that only partly overlaps the slot adds zero. *)
Theorem coverage_counts_full_containment :
  forall (ws before after : list window) (w : window) (s : slot),
    coverage ws s = Z.of_nat (containing_count ws s)
    /\ coverage (before ++ w :: after) s
       = coverage (before ++ after) s
         + (if fully_contains_dec w s then 1 else 0).
Proof.
  intros ws before after w s. split.
  - apply coverage_containing_count.
  - rewrite !coverage_containing_count, !containing_count_app.
    cbn [containing_count].
    destruct (fully_contains_dec w s); lia.
Qed.

Section ExtremaFacts.

Lemma fold_min_spec : forall rest x,
  let m := fold_left (fun m v => if v <? m then v else m) rest x in
  In m (x :: rest) /\ Forall (fun v => m <= v) (x :: rest).
Proof.
  intros rest. induction rest as [|y rest IH]; intros x; cbn zeta.
  - simpl. split; [auto|]. constructor; [lia|constructor].
  - cbn [fold_left].
    destruct (IH (if y <? x then y else x)) as [Hin Hall].
    inversion Hall as [|? ? Hhd Htl]; subst.
    destruct (Z.ltb_spec y x) as [Hlt | Hge].
    + split.
      * right. exact Hin.
      * constructor; [lia|]. constructor; assumption.
    + split.
      * destruct Hin as [<- | Hin]; [left; reflexivity | right; right; exact Hin].
      * constructor; [exact Hhd|]. constructor; [lia | exact Htl].
Qed.

Lemma fold_max_spec : forall rest x,
  let m := fold_left (fun m v => if v >? m then v else m) rest x in
  In m (x :: rest) /\ Forall (fun v => v <= m) (x :: rest).
Proof.
  intros rest. induction rest as [|y rest IH]; intros x; cbn zeta.
  - simpl. split; [auto|]. constructor; [lia|constructor].
  - cbn [fold_left].
    destruct (IH (if y >? x then y else x)) as [Hin Hall].
    inversion Hall as [|? ? Hhd Htl]; subst.
    destruct (Z.gtb_spec y x) as [Hgt | Hle].
    + split.
      * right. exact Hin.
      * constructor; [lia|]. constructor; assumption.
    + split.
      * destruct Hin as [<- | Hin]; [left; reflexivity | right; right; exact Hin].
      * constructor; [exact Hhd|]. constructor; [lia | exact Htl].
Qed.

Lemma py_min_spec : forall xs,
  xs <> [] ->
  exists m, py_min xs = Ok m /\ In m xs /\ (forall v, In v xs -> m <= v).
Proof.
  intros [|x rest] Hne; [contradiction|].
  destruct (fold_min_spec rest x) as [Hin Hall].
  eexists. split; [reflexivity|]. split; [exact Hin|].
  apply Forall_forall. exact Hall.
Qed.

Lemma py_max_spec : forall xs,
  xs <> [] ->
  exists m, py_max xs = Ok m /\ In m xs /\ (forall v, In v xs -> v <= m).
Proof.
  intros [|x rest] Hne; [contradiction|].
  destruct (fold_max_spec rest x) as [Hin Hall].
  eexists. split; [reflexivity|]. split; [exact Hin|].
  apply Forall_forall. exact Hall.
Qed.

Lemma perm_nonempty : forall (A : Type) (l l' : list A),
  Permutation l l' -> l <> [] -> l' <> [].
Proof.
  intros A l l' H Hne ->. apply Permutation_sym, Permutation_nil in H.
  contradiction.
Qed.

Lemma py_min_perm : forall xs xs', Permutation xs xs' -> py_min xs' = py_min xs.
Proof.
  intros xs xs' H. destruct xs as [|x rest].
  - apply Permutation_nil in H. subst. reflexivity.
  - assert (Hne : x :: rest <> []) by discriminate.
    destruct (py_min_spec _ Hne) as [m [-> [Hin Hle]]].
    destruct (py_min_spec _ (perm_nonempty _ _ _ H Hne)) as [m' [-> [Hin' Hle']]].
    f_equal.
    assert (m <= m') by (apply Hle; eapply Permutation_in;
                         [apply Permutation_sym; exact H | exact Hin']).
    assert (m' <= m) by (apply Hle'; eapply Permutation_in; [exact H | exact Hin]).
    lia.
Qed.

Lemma py_max_perm : forall xs xs', Permutation xs xs' -> py_max xs' = py_max xs.
Proof.
  intros xs xs' H. destruct xs as [|x rest].
  - apply Permutation_nil in H. subst. reflexivity.
  - assert (Hne : x :: rest <> []) by discriminate.
    destruct (py_max_spec _ Hne) as [m [-> [Hin Hle]]].
    destruct (py_max_spec _ (perm_nonempty _ _ _ H Hne)) as [m' [-> [Hin' Hle']]].
    f_equal.
    assert (m' <= m) by (apply Hle; eapply Permutation_in;
                         [apply Permutation_sym; exact H | exact Hin']).
    assert (m <= m') by (apply Hle'; eapply Permutation_in; [exact H | exact Hin]).
    lia.
Qed.

End ExtremaFacts.

Section SlotFacts.

Lemma thirty_minutes_pos : 0 < thirty_minutes.
Proof. reflexivity. Qed.

Lemma ceil_div_nonpos : forall a, a <= 0 -> ceil_div a thirty_minutes <= 0.
Proof.
  intros a Ha. unfold ceil_div.
  assert (0 <= (- a) / thirty_minutes).
  { apply Z.div_pos; [lia | exact thirty_minutes_pos]. }
  lia.
Qed.

Lemma ceil_div_step : forall a,
  ceil_div a thirty_minutes = ceil_div (a - thirty_minutes) thirty_minutes + 1.
Proof.
  intros a. unfold ceil_div.
  replace (- (a - thirty_minutes)) with (- a + 1 * thirty_minutes) by lia.
  rewrite Z.div_add by (pose proof thirty_minutes_pos; lia). lia.
Qed.

Lemma ceil_div_pos : forall a, 0 < a -> 0 < ceil_div a thirty_minutes.
Proof.
  intros a Ha. unfold ceil_div.
  assert ((- a) / thirty_minutes < 0).
  { apply Z.div_lt_upper_bound; [exact thirty_minutes_pos | lia]. }
  lia.
Qed.

(** [ceil_div] is the ceiling: the least [n] with [a <= n * W]. *)
Lemma ceil_div_bounds : forall a,
  a <= ceil_div a thirty_minutes * thirty_minutes
  /\ ceil_div a thirty_minutes * thirty_minutes < a + thirty_minutes.
Proof.
  intros a. unfold ceil_div.
  pose proof thirty_minutes_pos as HW.
  pose proof (Z.div_mod (- a) thirty_minutes ltac:(lia)) as Hdm.
  pose proof (Z.mod_pos_bound (- a) thirty_minutes HW) as Hb.
  nia.
Qed.

Lemma slot_at_shift : forall t k,
  slot_at t (S k) = slot_at (t + thirty_minutes) k.
Proof.
  intros t k. unfold slot_at. rewrite Nat2Z.inj_succ. f_equal; lia.
Qed.

Lemma spec_slots_done : forall t e, e <= t -> spec_slots t e = [].
Proof.
  intros t e H. unfold spec_slots.
  pose proof (ceil_div_nonpos (e - t) ltac:(lia)).
  replace (Z.to_nat (ceil_div (e - t) thirty_minutes)) with O by lia.
  reflexivity.
Qed.

Lemma spec_slots_step : forall t e,
  t < e ->
  spec_slots t e
  = (t, t + thirty_minutes) :: spec_slots (t + thirty_minutes) e.
Proof.
  intros t e H. unfold spec_slots.
  pose proof (ceil_div_pos (e - t) ltac:(lia)) as Hpos.
  pose proof (ceil_div_step (e - t)) as Hstep.
  replace (e - (t + thirty_minutes)) with (e - t - thirty_minutes) by lia.
  replace (Z.to_nat (ceil_div (e - t) thirty_minutes))
    with (S (Z.to_nat (ceil_div (e - t - thirty_minutes) thirty_minutes)))
    by lia.
  cbn [seq map]. f_equal.
  - unfold slot_at. f_equal; simpl; lia.
  - rewrite <- seq_shift, map_map. apply map_ext.
    intros k. apply slot_at_shift.
Qed.

Lemma slots_loop_done : forall current_time end_time slots,
  end_time <= current_time ->
  slots_loop current_time end_time slots = Ok slots.
Proof.
  intros current_time end_time slots H.
  funelim (slots_loop current_time end_time slots); try reflexivity; lia.
Qed.

(** When the loop returns, it has appended exactly the slots of the span
    that was left. *)
Lemma slots_loop_ok : forall current_time end_time slots r,
  slots_loop current_time end_time slots = Ok r ->
  r = (slots ++ spec_slots current_time end_time)%list.
Proof.
  intros current_time end_time slots.
  funelim (slots_loop current_time end_time slots); intros r Hr.
  - injection Hr as <-. rewrite spec_slots_done by lia.
    rewrite app_nil_r. reflexivity.
  - match goal with
    | IH : forall r, _ = Ok r -> r = _ |- _ => rewrite (IH r Hr)
    end.
    rewrite (spec_slots_step current_time end_time) by assumption.
    rewrite <- app_assoc. reflexivity.
  - discriminate.
Qed.

(** From a [datetime], the loop returns exactly when the last slot of the
    span ends by [datetime.max]; otherwise building a slot raises. *)
Lemma slots_loop_cases : forall current_time end_time slots,
  is_datetime current_time ->
  slots_loop current_time end_time slots
  = if current_time
       + Z.of_nat (List.length (spec_slots current_time end_time))
         * thirty_minutes <=? datetime_max
    then Ok (slots ++ spec_slots current_time end_time)%list
    else Raise (OverflowError "date value out of range").
Proof.
  intros current_time end_time slots.
  funelim (slots_loop current_time end_time slots); intros Hdt.
  - rewrite spec_slots_done by lia. cbn [List.length].
    rewrite app_nil_r.
    match goal with |- _ = (if ?c then _ else _) => destruct c eqn:E end;
      [reflexivity|].
    exfalso. apply Z.leb_gt in E. unfold is_datetime in *. lia.
  - match goal with
    | IH : is_datetime _ -> slots_loop _ _ _ = _ |- _ => rewrite IH by assumption
    end.
    rewrite (spec_slots_step current_time end_time) by assumption.
    cbn [List.length]. rewrite Nat2Z.inj_succ.
    replace (current_time
             + Z.succ (Z.of_nat (List.length
                                   (spec_slots (current_time + thirty_minutes)
                                               end_time))) * thirty_minutes)
      with (current_time + thirty_minutes
            + Z.of_nat (List.length
                          (spec_slots (current_time + thirty_minutes) end_time))
              * thirty_minutes) by lia.
    rewrite <- app_assoc. reflexivity.
  - rewrite (spec_slots_step current_time end_time) by assumption.
    cbn [List.length]. rewrite Nat2Z.inj_succ.
    match goal with |- _ = (if ?c then _ else _) => destruct c eqn:E end;
      [|reflexivity].
    exfalso. apply Z.leb_le in E. unfold is_datetime in *.
    pose proof thirty_minutes_pos. nia.
Qed.

Lemma spec_slots_length : forall t e,
  Z.of_nat (List.length (spec_slots t e))
  = Z.max 0 (ceil_div (e - t) thirty_minutes).
Proof.
  intros t e. unfold spec_slots. rewrite length_map, length_seq. lia.
Qed.

Lemma slots_from_sorted : forall t a n,
  chronological (map (slot_at t) (seq a n)).
Proof.
  intros t a n. revert a. unfold chronological.
  induction n as [|n IH]; intros a; cbn [seq map].
  - constructor.
  - constructor; [apply IH|].
    apply Forall_forall. intros s Hs.
    apply in_map_iff in Hs. destruct Hs as [k [<- Hk]].
    apply in_seq in Hk. unfold slot_at. cbn [fst].
    pose proof thirty_minutes_pos. nia.
Qed.

Lemma spec_slots_sorted : forall t e, chronological (spec_slots t e).
Proof. intros t e. apply slots_from_sorted. Qed.

Lemma spec_slots_start_before_end : forall t e s,
  In s (spec_slots t e) -> t <= fst s /\ fst s < e /\ snd s = fst s + thirty_minutes.
Proof.
  intros t e s Hs. unfold spec_slots in Hs.
  apply in_map_iff in Hs. destruct Hs as [k [<- Hk]].
  apply in_seq in Hk. unfold slot_at. cbn [fst snd].
  pose proof thirty_minutes_pos as HW.
  pose proof (ceil_div_bounds (e - t)) as [_ Hub].
  split; [nia|]. split; [nia|lia].
Qed.

Lemma all_slots_loop : forall ws global_start global_end,
  py_min (map startTime ws) = Ok global_start ->
  py_max (map endTime ws) = Ok global_end ->
  all_slots ws = slots_loop global_start global_end [].
Proof.
  intros ws gs ge Hmin Hmax. unfold all_slots.
  rewrite Hmin, Hmax. reflexivity.
Qed.

(** A slot list that was built is the list of the span's slots. *)
Lemma all_slots_ok : forall ws global_start global_end slots,
  py_min (map startTime ws) = Ok global_start ->
  py_max (map endTime ws) = Ok global_end ->
  all_slots ws = Ok slots ->
  slots = spec_slots global_start global_end.
Proof.
  intros ws gs ge slots Hmin Hmax H.
  rewrite (all_slots_loop ws gs ge Hmin Hmax) in H.
  apply slots_loop_ok in H. exact H.
Qed.

Lemma all_slots_perm : forall ws ws',
  Permutation ws ws' -> all_slots ws' = all_slots ws.
Proof.
  intros ws ws' H. unfold all_slots.
  rewrite (py_min_perm _ _ (Permutation_map startTime H)).
  rewrite (py_max_perm _ _ (Permutation_map endTime H)).
  reflexivity.
Qed.

Lemma extrema_of_windows : forall ws,
  ws <> [] ->
  exists gs ge,
    py_min (map startTime ws) = Ok gs /\ py_max (map endTime ws) = Ok ge
    /\ (forall w, In w ws -> gs <= startTime w /\ endTime w <= ge)
    /\ (exists w, In w ws /\ startTime w = gs)
    /\ (exists w, In w ws /\ endTime w = ge).
Proof.
  intros ws Hne.
  assert (Hs : map startTime ws <> []) by (destruct ws; [contradiction|discriminate]).
  assert (He : map endTime ws <> []) by (destruct ws; [contradiction|discriminate]).
  destruct (py_min_spec _ Hs) as [gs [Hmin [Hin Hle]]].
  destruct (py_max_spec _ He) as [ge [Hmax [Hin' Hle']]].
  exists gs, ge. split; [exact Hmin|]. split; [exact Hmax|]. split.
  - intros w Hw. split; [apply Hle | apply Hle']; apply in_map; exact Hw.
  - apply in_map_iff in Hin. apply in_map_iff in Hin'.
    destruct Hin as [w [Hw1 Hw2]]. destruct Hin' as [w' [Hw1' Hw2']].
    split; [exists w | exists w']; auto.
Qed.

End SlotFacts.

(** C5, as stated, fails.  One window from 23:40 to 23:50 on the last day
    of year 9999: the span asks for [ceil(10min / 30min) = 1] slot, but
    its end, 00:10 of the next day, is past [datetime.max]; the addition
    raises [OverflowError], no slot list is built and nothing is
    selected. *)
Lemma last_half_hour_has_no_slots :
  convert Iso.fromisoformat (availabilities last_half_hour_db)
  = Ok last_half_hour
  /\ is_datetime 315537896400000000 /\ is_datetime 315537897000000000
  /\ ceil_div (315537897000000000 - 315537896400000000) thirty_minutes = 1
  /\ all_slots last_half_hour = Raise (OverflowError "date value out of range")
  /\ select_time Iso.fromisoformat Iso.isoformat no_faults "e1" last_half_hour_db
     = None.
Proof. vm_compute. repeat split; discriminate. Qed.

(** C5, amended.  For a non-empty list of windows the code takes the least
    window start as the global start and the greatest window end as the
    global end.  When the last slot of the span ends by [datetime.max],
    its slot list is slot 0, 1, ... of the span, slot [k] being
    [[start + k*30min, start + (k+1)*30min)]: in chronological order,
    [ceil((end - start) / 30min)] of them (none when the span is empty),
    each beginning before the global end, the last one reaching it or
    running past it.  Otherwise building a slot raises [OverflowError] and
    there is no slot list. *)
Theorem all_slots_cover_span : forall ws,
  ws <> [] ->
  (forall w, In w ws -> is_datetime (startTime w)) ->
  exists global_start global_end,
    py_min (map startTime ws) = Ok global_start
    /\ py_max (map endTime ws) = Ok global_end
    /\ (In global_start (map startTime ws)
        /\ forall w, In w ws -> global_start <= startTime w)
    /\ (In global_end (map endTime ws)
        /\ forall w, In w ws -> endTime w <= global_end)
    /\ all_slots ws
       = (if global_start
             + Z.max 0 (ceil_div (global_end - global_start) thirty_minutes)
               * thirty_minutes <=? datetime_max
          then Ok (map (slot_at global_start)
                     (seq 0 (Z.to_nat (ceil_div (global_end - global_start)
                                                thirty_minutes))))
          else Raise (OverflowError "date value out of range"))
    /\ Z.of_nat (List.length (spec_slots global_start global_end))
       = Z.max 0 (ceil_div (global_end - global_start) thirty_minutes)
    /\ chronological (spec_slots global_start global_end)
    /\ (forall s, In s (spec_slots global_start global_end) -> fst s < global_end)
    /\ global_end
       <= global_start
          + Z.of_nat (List.length (spec_slots global_start global_end))
            * thirty_minutes.
Proof.
  intros ws Hne Hdt.
  assert (Hs : map startTime ws <> []) by (destruct ws; [contradiction|discriminate]).
  assert (He : map endTime ws <> []) by (destruct ws; [contradiction|discriminate]).
  destruct (py_min_spec _ Hs) as [gs [Hmin [Hin Hle]]].
  destruct (py_max_spec _ He) as [ge [Hmax [Hin' Hle']]].
  exists gs, ge.
  split; [exact Hmin|]. split; [exact Hmax|].
  split; [split; [exact Hin | intros w Hw; apply Hle, in_map; exact Hw]|].
  split; [split; [exact Hin' | intros w Hw; apply Hle', in_map; exact Hw]|].
  split.
  - rewrite (all_slots_loop ws gs ge Hmin Hmax).
    assert (Hgs : is_datetime gs).
    { apply in_map_iff in Hin. destruct Hin as [w [<- Hw]]. apply Hdt, Hw. }
    rewrite (slots_loop_cases gs ge [] Hgs), spec_slots_length. reflexivity.
  - split; [apply spec_slots_length|].
    split; [apply spec_slots_sorted|].
    split; [intros s Hs'; apply (spec_slots_start_before_end gs ge s Hs')|].
    rewrite spec_slots_length.
    pose proof (ceil_div_bounds (ge - gs)) as [Hlb _].
    pose proof thirty_minutes_pos. nia.
Qed.

Lemma all_slots_cover_span_witness :
  exists global_start global_end,
    py_min (map startTime scenario_a) = Ok global_start
    /\ py_max (map endTime scenario_a) = Ok global_end
    /\ (In global_start (map startTime scenario_a)
        /\ forall w, In w scenario_a -> global_start <= startTime w)
    /\ (In global_end (map endTime scenario_a)
        /\ forall w, In w scenario_a -> endTime w <= global_end)
    /\ all_slots scenario_a
       = (if global_start
             + Z.max 0 (ceil_div (global_end - global_start) thirty_minutes)
               * thirty_minutes <=? datetime_max
          then Ok (map (slot_at global_start)
                     (seq 0 (Z.to_nat (ceil_div (global_end - global_start)
                                                thirty_minutes))))
          else Raise (OverflowError "date value out of range"))
    /\ Z.of_nat (List.length (spec_slots global_start global_end))
       = Z.max 0 (ceil_div (global_end - global_start) thirty_minutes)
    /\ chronological (spec_slots global_start global_end)
    /\ (forall s, In s (spec_slots global_start global_end) -> fst s < global_end)
    /\ global_end
       <= global_start
          + Z.of_nat (List.length (spec_slots global_start global_end))
            * thirty_minutes.
Proof.
  apply (all_slots_cover_span scenario_a).
  - discriminate.
  - intros w [<- | [<- | [<- | []]]]; vm_compute; split; discriminate.
Defined.

Section MaxFacts.

Context {A : Type} (key : A -> Z).

(** The scan keeps the first item of greatest key: everything before it is
    strictly smaller, nothing after it is greater. *)
Lemma max_scan_first : forall rest before best after,
  Forall (fun y => key y < key best) before ->
  Forall (fun y => key y <= key best) after ->
  exists before' r after',
    fold_left (max_step key) rest (best, key best) = (r, key r)
    /\ (before ++ best :: after ++ rest = before' ++ r :: after')%list
    /\ Forall (fun y => key y < key r) before'
    /\ Forall (fun y => key y <= key r) after'.
Proof.
  intros rest. induction rest as [|y rest IH]; intros before best after Hb Ha.
  - exists before, best, after. rewrite app_nil_r. auto.
  - cbn [fold_left]. unfold max_step at 2. cbn [snd].
    destruct (Z.gtb_spec (key y) (key best)) as [Hgt | Hle].
    + destruct (IH (before ++ best :: after)%list y [])
        as [b' [r [a' [Hf [Hl [Hb' Ha']]]]]].
      * apply Forall_app. split.
        -- eapply Forall_impl; [|exact Hb]. cbv beta. intros; lia.
        -- constructor; [lia|].
           eapply Forall_impl; [|exact Ha]. cbv beta. intros; lia.
      * constructor.
      * exists b', r, a'. repeat split; try assumption.
        rewrite <- Hl. cbn [app]. rewrite <- !app_assoc. reflexivity.
    + destruct (IH before best (after ++ [y])%list Hb)
        as [b' [r [a' [Hf [Hl [Hb' Ha']]]]]].
      * apply Forall_app. split; [exact Ha|]. constructor; [lia|constructor].
      * exists b', r, a'. repeat split; try assumption.
        rewrite <- Hl. rewrite <- !app_assoc. reflexivity.
Qed.

Lemma py_max_key_first : forall items,
  items <> [] ->
  exists before r after,
    py_max_key key items = Ok r
    /\ items = (before ++ r :: after)%list
    /\ Forall (fun y => key y < key r) before
    /\ Forall (fun y => key y <= key r) after.
Proof.
  intros [|x rest] Hne; [contradiction|].
  destruct (max_scan_first rest [] x [] (Forall_nil _) (Forall_nil _))
    as [b [r [a [Hf [Hl [Hb Ha]]]]]].
  exists b, r, a. unfold py_max_key. rewrite Hf. auto.
Qed.

Lemma py_max_key_ext : forall (key' : A -> Z) items,
  (forall x, key' x = key x) -> py_max_key key' items = py_max_key key items.
Proof.
  intros key' items Hext. destruct items as [|x rest]; [reflexivity|].
  unfold py_max_key. rewrite Hext. f_equal. f_equal.
  generalize (x, key x). induction rest as [|y rest IH]; intros acc.
  - reflexivity.
  - cbn [fold_left]. unfold max_step at 2 4. rewrite Hext. apply IH.
Qed.

End MaxFacts.

Lemma sorted_after : forall (R : slot -> slot -> Prop) before x after,
  StronglySorted R (before ++ x :: after) -> Forall (R x) after.
Proof.
  intros R before x after. induction before as [|b before IH]; intros H.
  - apply StronglySorted_inv in H. apply H.
  - apply StronglySorted_inv in H. apply IH, H.
Qed.

Lemma best_slot_perm : forall ws ws',
  Permutation ws ws' -> best_slot ws' = best_slot ws.
Proof.
  intros ws ws' H. unfold best_slot.
  rewrite (all_slots_perm ws ws' H).
  destruct (all_slots ws) as [slots|e]; [|reflexivity].
  cbn [bind_result]. apply py_max_key_ext.
  intros s. apply coverage_perm. exact H.
Qed.

(** C2.  Over the chronologically ordered slot sequence, the selection
    returns a slot of greatest coverage and, among the slots that share
    that coverage, the earliest; it fails only when there is no slot to
    choose from (no window, an empty slot sequence, or a slot sequence that
    could not be built).  The result is the same for every reordering of
    the window list. *)
Theorem best_slot_earliest_maximum : forall ws ws',
  Permutation ws ws' ->
  best_slot ws' = best_slot ws
  /\ match best_slot ws with
     | Ok best =>
         exists slots,
           all_slots ws = Ok slots
           /\ chronological slots
           /\ In best slots
           /\ forall s, In s slots ->
                coverage ws s <= coverage ws best
                /\ (coverage ws s = coverage ws best -> fst best <= fst s)
     | Raise e => ws = [] \/ all_slots ws = Ok [] \/ all_slots ws = Raise e
     end.
Proof.
  intros ws ws' Hperm. split; [apply best_slot_perm; exact Hperm|].
  destruct ws as [|w ws0]; [left; reflexivity|].
  destruct (extrema_of_windows (w :: ws0) ltac:(discriminate))
    as [gs [ge [Hmin [Hmax _]]]].
  unfold best_slot.
  destruct (all_slots (w :: ws0)) as [slots|e] eqn:Hall; cbn [bind_result];
    [|right; right; reflexivity].
  pose proof (all_slots_ok _ gs ge slots Hmin Hmax Hall) as Hspec.
  destruct slots as [|s0 slots0]; [right; left; reflexivity|].
  destruct (py_max_key_first (coverage (w :: ws0)) (s0 :: slots0)
              ltac:(discriminate))
    as [before [best [after [Hbest [Hsplit [Hb Ha]]]]]].
  rewrite Hbest. exists (s0 :: slots0).
  pose proof (spec_slots_sorted gs ge) as Hsorted.
  rewrite <- Hspec in Hsorted.
  repeat split; try assumption.
  + rewrite Hsplit. apply in_or_app. right. left. reflexivity.
  + rewrite Hsplit in H. apply in_app_or in H.
    rewrite Forall_forall in Hb, Ha.
    destruct H as [H | [<- | H]].
    * specialize (Hb _ H). cbv beta in Hb. lia.
    * lia.
    * apply Ha. exact H.
  + intros Heq. rewrite Hsplit in H, Hsorted. apply in_app_or in H.
    pose proof (sorted_after _ _ _ _ Hsorted) as Hlater.
    rewrite Forall_forall in Hb, Hlater.
    destruct H as [H | [<- | H]].
    * specialize (Hb _ H). cbv beta in Hb. lia.
    * lia.
    * specialize (Hlater _ H). cbv beta in Hlater. lia.
Qed.

Lemma best_slot_earliest_maximum_witness :
  best_slot (rev scenario_a) = best_slot scenario_a
  /\ match best_slot scenario_a with
     | Ok best =>
         exists slots,
           all_slots scenario_a = Ok slots
           /\ chronological slots
           /\ In best slots
           /\ forall s, In s slots ->
                coverage scenario_a s <= coverage scenario_a best
                /\ (coverage scenario_a s = coverage scenario_a best ->
                    fst best <= fst s)
     | Raise e =>
         scenario_a = [] \/ all_slots scenario_a = Ok []
         \/ all_slots scenario_a = Raise e
     end.
Proof.
  apply (best_slot_earliest_maximum scenario_a (rev scenario_a)).
  apply Permutation_rev.
Defined.

(** * Further properties of [parse_datetime] *)

Section ParseFacts.

Local Open Scope nat_scope.

Lemma digit_of_bound : forall c d, Strptime.digit_of c = Some d -> d <= 9.
Proof.
  intros c d. unfold Strptime.digit_of.
  destruct ((48 <=? nat_of_ascii c) && (nat_of_ascii c <=? 57)) eqn:E;
    [|discriminate].
  intros H. inversion H; subst.
  apply andb_true_iff in E. destruct E as [_ E]. apply Nat.leb_le in E. lia.
Qed.

Lemma digit_in : forall ok s v r,
  In (v, r) (Strptime.digit ok s) -> ok v = true /\ v <= 9.
Proof.
  intros ok s v r. unfold Strptime.digit.
  destruct s as [|c rest]; [contradiction|].
  destruct (Strptime.digit_of c) as [d|] eqn:E; [|contradiction].
  destruct (ok d) eqn:Eok; [|contradiction].
  intros [H | []]. inversion H; subst.
  split; [exact Eok | exact (digit_of_bound _ _ E)].
Qed.

Lemma two_in : forall ok1 ok2 s v r,
  In (v, r) (Strptime.two ok1 ok2 s) ->
  exists a b, v = 10 * a + b /\ ok1 a = true /\ ok2 b = true /\ a <= 9 /\ b <= 9.
Proof.
  intros ok1 ok2 s v r. unfold Strptime.two, Strptime.bind, Strptime.ret.
  intros H. apply in_flat_map in H. destruct H as [[a ra] [Ha H]].
  apply in_flat_map in H. destruct H as [[b rb] [Hb H]].
  cbn [fst snd] in *. destruct H as [H | []]. inversion H; subst.
  apply digit_in in Ha. apply digit_in in Hb.
  exists a, b. tauto.
Qed.

Ltac range_facts :=
  repeat match goal with
  | H : In _ (Strptime.alt _ _ _) |- _ => unfold Strptime.alt in H
  | H : In _ (_ ++ _)%list |- _ => apply in_app_or in H; destruct H as [H | H]
  | H : In _ (Strptime.two _ _ _) |- _ =>
      apply two_in in H; destruct H as [? [? [? [? [? [? ?]]]]]]
  | H : In _ (Strptime.digit _ _) |- _ => apply digit_in in H; destruct H
  | H : Strptime.between _ _ _ = true |- _ =>
      unfold Strptime.between in H; apply andb_true_iff in H; destruct H
  | H : (_ <=? _) = true |- _ => apply Nat.leb_le in H
  | H : (_ =? _) = true |- _ => apply Nat.eqb_eq in H
  end.

Lemma re_y_in : forall s v r, In (v, r) (Strptime.re_y s) -> v <= 99.
Proof. intros s v r H. unfold Strptime.re_y in H. range_facts. lia. Qed.

Lemma re_m_in : forall s v r, In (v, r) (Strptime.re_m s) -> 1 <= v <= 12.
Proof. intros s v r H. unfold Strptime.re_m in H. range_facts; lia. Qed.

Lemma re_d_in : forall s v r, In (v, r) (Strptime.re_d s) -> 1 <= v <= 31.
Proof.
  intros s v r H. unfold Strptime.re_d in H. range_facts; try lia.
  unfold Strptime.bind in H. apply in_flat_map in H.
  destruct H as [[u ru] [_ H]]. cbn [fst snd] in H. range_facts. lia.
Qed.

Lemma re_H_in : forall s v r, In (v, r) (Strptime.re_H s) -> v <= 23.
Proof. intros s v r H. unfold Strptime.re_H in H. range_facts; lia. Qed.

Lemma re_M_in : forall s v r, In (v, r) (Strptime.re_M s) -> v <= 59.
Proof. intros s v r H. unfold Strptime.re_M in H. range_facts; lia. Qed.

Lemma bind_in : forall (A B : Type) (p : Strptime.matcher A)
    (k : A -> Strptime.matcher B) s b r,
  In (b, r) (Strptime.bind p k s) ->
  exists a ra, In (a, ra) (p s) /\ In (b, r) (k a ra).
Proof.
  intros A B p k s b r H. unfold Strptime.bind in H.
  apply in_flat_map in H. destruct H as [[a ra] [Ha H]].
  exists a, ra. split; assumption.
Qed.

Lemma format_regex_in : forall s y m d H M r,
  In ((y, m, d, H, M), r) (Strptime.format_regex s) ->
  y <= 99 /\ 1 <= m <= 12 /\ 1 <= d <= 31 /\ H <= 23 /\ M <= 59.
Proof.
  intros s y m d H M r Hin. unfold Strptime.format_regex in Hin.
  apply bind_in in Hin. destruct Hin as [y' [r1 [Hy Hin]]].
  apply bind_in in Hin. destruct Hin as [_ [r2 [_ Hin]]].
  apply bind_in in Hin. destruct Hin as [m' [r3 [Hm Hin]]].
  apply bind_in in Hin. destruct Hin as [_ [r4 [_ Hin]]].
  apply bind_in in Hin. destruct Hin as [d' [r5 [Hd Hin]]].
  apply bind_in in Hin. destruct Hin as [_ [r6 [_ Hin]]].
  apply bind_in in Hin. destruct Hin as [H' [r7 [HH Hin]]].
  apply bind_in in Hin. destruct Hin as [_ [r8 [_ Hin]]].
  apply bind_in in Hin. destruct Hin as [M' [r9 [HM Hin]]].
  destruct Hin as [Heq | []]. inversion Heq; subst.
  apply re_y_in in Hy. apply re_m_in in Hm. apply re_d_in in Hd.
  apply re_H_in in HH. apply re_M_in in HM. tauto.
Qed.

Lemma strptime_fields : forall s t,
  Strptime.strptime s = Ok t ->
  1969 <= year t <= 2068 /\ 1 <= month t <= 12
  /\ 1 <= day t <= Strptime.days_in_month (year t) (month t)
  /\ hour t <= 23 /\ minute t <= 59.
Proof.
  intros s t. unfold Strptime.strptime.
  destruct (Strptime.format_regex s) as [|[[[[[y m] d] H] M] r] rest] eqn:E;
    [discriminate|].
  assert (Hin : In ((y, m, d, H, M), r) (Strptime.format_regex s))
    by (rewrite E; left; reflexivity).
  apply format_regex_in in Hin.
  destruct (PyStr.is_empty r); [|discriminate].
  destruct (d <=? Strptime.days_in_month (if y <=? 68 then 2000 + y else 1900 + y) m)
    eqn:Ed; [|discriminate].
  intros Ht. injection Ht as <-.
  cbv beta iota delta [year month day hour minute].
  apply Nat.leb_le in Ed.
  destruct Hin as [Hy [Hm [Hd [HH HM]]]].
  destruct (Nat.leb_spec y 68);
    (split; [lia | split; [exact Hm | split; [split; [lia | exact Ed] | ]]]);
    split; assumption.
Qed.

Lemma lstrip_prefix : forall chars prefix s,
  forallb (fun c => PyStr.mem c chars) (list_ascii_of_string prefix) = true ->
  PyStr.lstrip chars (prefix ++ s) = PyStr.lstrip chars s.
Proof.
  intros chars prefix s. induction prefix as [|c prefix IH]; intros H.
  - reflexivity.
  - cbn [list_ascii_of_string forallb] in H. apply andb_true_iff in H.
    destruct H as [Hc Hrest]. cbn [append PyStr.lstrip]. rewrite Hc.
    apply IH. exact Hrest.
Qed.

End ParseFacts.

(** X1.  Whatever [parse_datetime] accepts is a real calendar minute
    between 1969 and 2068, printed in the nineteen characters of the
    layout [YYYY-MM-DDTHH:MM:00]. *)
Theorem parse_datetime_valid_date : forall s iso,
  parse_datetime s = Ok iso ->
  exists t,
    iso = Strptime.isoformat t
    /\ String.length iso = 19%nat
    /\ (1969 <= year t <= 2068)%nat /\ (1 <= month t <= 12)%nat
    /\ (1 <= day t <= Strptime.days_in_month (year t) (month t))%nat
    /\ (hour t <= 23)%nat /\ (minute t <= 59)%nat.
Proof.
  intros s iso. unfold parse_datetime.
  destruct (Strptime.strptime (PyStr.lstrip "start:" s)) as [t|e] eqn:E;
    [|discriminate].
  intros H. inversion H; subst. exists t.
  split; [reflexivity|]. split; [reflexivity|].
  apply (strptime_fields _ _ E).
Qed.

Lemma parse_datetime_valid_date_witness :
  exists t,
    "2024-02-29T23:59:00"%string = Strptime.isoformat t
    /\ String.length "2024-02-29T23:59:00" = 19%nat
    /\ (1969 <= year t <= 2068)%nat /\ (1 <= month t <= 12)%nat
    /\ (1 <= day t <= Strptime.days_in_month (year t) (month t))%nat
    /\ (hour t <= 23)%nat /\ (minute t <= 59)%nat.
Proof.
  apply (parse_datetime_valid_date "start:24-02-29:23-59"). reflexivity.
Defined.

(** X2.  No token that carries the [end:] label parses, whatever follows
    the label: [lstrip("start:")] stops at the letter [e], and the format
    starts with a digit. *)
Theorem parse_datetime_rejects_end_label : forall payload,
  parse_datetime ("end:" ++ payload)
  = Raise (ValueError "time data does not match format").
Proof. intros payload. reflexivity. Qed.

(** X3.  The label is not checked: any leading run of the characters
    [s], [t], [a], [r] and [:] is dropped before parsing, so it changes
    nothing in the result. *)
Theorem parse_datetime_ignores_label_characters : forall prefix s,
  forallb (fun c => PyStr.mem c "start:") (list_ascii_of_string prefix) = true ->
  parse_datetime (prefix ++ s) = parse_datetime s.
Proof.
  intros prefix s H. unfold parse_datetime.
  rewrite (lstrip_prefix "start:" prefix s H). reflexivity.
Qed.

Lemma parse_datetime_ignores_label_characters_witness :
  parse_datetime ("tsar::rats:" ++ "24-07-01:09-00")
  = parse_datetime "24-07-01:09-00".
Proof.
  apply (parse_datetime_ignores_label_characters "tsar::rats:" "24-07-01:09-00").
  reflexivity.
Defined.

(** * Further properties of [get_named_parameter] *)

Lemma find_first_match :
  forall (before : list (string * string)) name value after,
    (forall item, In item before -> fst item <> name) ->
    find (fun item => String.eqb (fst item) name)
         (before ++ (name, value) :: after)
    = Some (name, value).
Proof.
  intros before name value after Hbefore.
  induction before as [|item before IH]; cbn [app find fst].
  - rewrite String.eqb_refl. reflexivity.
  - assert (Hne : fst item <> name) by (apply Hbefore; left; reflexivity).
    apply String.eqb_neq in Hne. rewrite Hne.
    apply IH. intros i Hi. apply Hbefore. right. exact Hi.
Qed.

(** X4.  With several items of the same name the first one is returned. *)
Theorem get_named_parameter_first_match :
  forall event before name value after,
    parameters event = Some (before ++ (name, value) :: after)%list ->
    (forall item, In item before -> fst item <> name) ->
    get_named_parameter event name = Ok value.
Proof.
  intros event before name value after Hp Hbefore.
  unfold get_named_parameter. rewrite Hp.
  rewrite (find_first_match before name value after Hbefore). reflexivity.
Qed.

Lemma get_named_parameter_first_match_witness :
  get_named_parameter
    (mkLambdaEvent None (Some "rsvp")
       (Some [ ("user_id", "u1"); ("event_id", "e1"); ("event_id", "e2") ]%string)
       None)
    "event_id"
  = Ok "e1"%string.
Proof.
  apply (get_named_parameter_first_match _ [ ("user_id", "u1") ]%string
           "event_id" "e1" [ ("event_id", "e2") ]%string).
  - reflexivity.
  - intros item [<- | []]. discriminate.
Defined.

(** X5.  The lookup ends in [StopIteration] exactly when the request has a
    parameter list and no item of it carries the name. *)
Theorem get_named_parameter_stop_iteration : forall event name,
  get_named_parameter event name = Raise StopIteration
  <-> exists items,
        parameters event = Some items
        /\ forall value, ~ In (name, value) items.
Proof.
  intros event name. unfold get_named_parameter. split.
  - destruct (parameters event) as [items|]; [|discriminate].
    destruct (find (fun item => String.eqb (fst item) name) items) eqn:E;
      [discriminate|].
    intros _. exists items. split; [reflexivity|].
    intros value Hin.
    pose proof (find_none _ _ E _ Hin) as Hf. cbn [fst] in Hf.
    rewrite String.eqb_refl in Hf. discriminate.
  - intros [items [-> Hnone]].
    destruct (find (fun item => String.eqb (fst item) name) items)
      as [[n v]|] eqn:E; [|reflexivity].
    apply find_some in E. destruct E as [Hin Heq]. cbn [fst] in Heq.
    apply String.eqb_eq in Heq. subst n.
    exfalso. exact (Hnone v Hin).
Qed.

(** * Further properties of [update_event_time] and [find_best_time] *)




(** X8.  [find_best_time] touches one event only: the availabilities, the
    identifiers of the events and the confirmed time of every other event
    are as before, whatever it returns. *)
Theorem find_best_time_frame :
  forall fromisoformat isoformat faults event_id other db,
    other <> event_id ->
    let after := snd (find_best_time fromisoformat isoformat faults event_id db) in
    availabilities after = availabilities db
    /\ map ev_eventID (events after) = map ev_eventID (events db)
    /\ Store.confirmed_time_of other after = Store.confirmed_time_of other db.
Proof.
  intros fromisoformat isoformat faults event_id other db Hne after. subst after.
  destruct (find_best_time_cases fromisoformat isoformat faults event_id db)
    as [E | [[t [e [_ [_ [_ E]]]]] | [t [_ [_ [_ E]]]]]]; rewrite E; cbn [snd].
  - auto.
  - auto.
  - split; [reflexivity|]. split.
    + apply update_ids.
    + apply update_lookup_other. exact Hne.
Qed.

Lemma find_best_time_frame_witness :
  availabilities (snd (finalize "e1" scenario_a_db))
  = availabilities scenario_a_db
  /\ map ev_eventID (events (snd (finalize "e1" scenario_a_db)))
     = map ev_eventID (events scenario_a_db)
  /\ Store.confirmed_time_of "e2" (snd (finalize "e1" scenario_a_db))
     = Store.confirmed_time_of "e2" scenario_a_db.
Proof.
  apply (find_best_time_frame Iso.fromisoformat Iso.isoformat no_faults "e1" "e2"
           scenario_a_db).
  discriminate.
Defined.

(** X9.  When [find_best_time] reports success on an event of the table,
    the confirmed time it leaves is the time [select_time] computed on the
    store it was given. *)
Theorem find_best_time_confirms_selected :
  forall fromisoformat isoformat faults event_id db,
    In event_id (map ev_eventID (events db)) ->
    is_error (fst (find_best_time fromisoformat isoformat faults event_id db)) = false ->
    exists t,
      select_time fromisoformat isoformat faults event_id db = Some t
      /\ Store.confirmed_time_of event_id
           (snd (find_best_time fromisoformat isoformat faults event_id db))
         = Some t.
Proof.
  intros fromisoformat isoformat faults event_id db Hin Hok.
  destruct (find_best_time_cases fromisoformat isoformat faults event_id db)
    as [E | [[t [e [_ [_ [_ E]]]]] | [t [Hsel [_ [_ E]]]]]];
    rewrite E in *; cbn [fst snd is_error] in *.
  - discriminate.
  - discriminate.
  - exists t. split; [exact Hsel|]. apply update_lookup_same. exact Hin.
Qed.

Lemma find_best_time_confirms_selected_witness :
  exists t,
    select_time Iso.fromisoformat Iso.isoformat no_faults "e1" scenario_a_db = Some t
    /\ Store.confirmed_time_of "e1"
         (snd (find_best_time Iso.fromisoformat Iso.isoformat no_faults "e1" scenario_a_db))
       = Some t.
Proof.
  apply (find_best_time_confirms_selected Iso.fromisoformat Iso.isoformat no_faults "e1"
           scenario_a_db).
  - left. reflexivity.
  - vm_compute. reflexivity.
Defined.

(** * Further properties of [select_time] *)

Section SelectFacts.

Variable fromisoformat : string -> result instant.
Variable isoformat : instant -> string.

Lemma convert_raises : forall rows row,
  In row rows ->
  raises (fromisoformat (av_startTime row))
  || raises (fromisoformat (av_endTime row)) = true ->
  raises (convert fromisoformat rows) = true.
Proof.
  intros rows row Hin Hbad. induction rows as [|r rows IH]; [contradiction|].
  cbn [convert]. unfold bind_result.
  destruct Hin as [-> | Hin].
  - destruct (fromisoformat (av_startTime row)); [|reflexivity].
    destruct (fromisoformat (av_endTime row)); [|reflexivity].
    discriminate.
  - destruct (fromisoformat (av_startTime r)); [|reflexivity].
    destruct (fromisoformat (av_endTime r)); [|reflexivity].
    specialize (IH Hin).
    destruct (convert fromisoformat rows); [discriminate | reflexivity].
Qed.

Lemma select_after_foreign_insert : forall event_id row db,
  av_eventID row <> event_id ->
  Store.select_availabilities event_id (Store.insert_availability row db)
  = Store.select_availabilities event_id db.
Proof.
  intros event_id row db Hne. unfold Store.select_availabilities.
  cbn [Store.insert_availability availabilities].
  rewrite filter_app. cbn [filter].
  apply String.eqb_neq in Hne. rewrite Hne. apply app_nil_r.
Qed.

End SelectFacts.

(** X10.  An availability recorded for another event does not change what
    [select_time] returns for this one. *)
Theorem select_time_ignores_other_events :
  forall fromisoformat isoformat faults event_id row db,
    av_eventID row <> event_id ->
    select_time fromisoformat isoformat faults event_id
      (Store.insert_availability row db)
    = select_time fromisoformat isoformat faults event_id db.
Proof.
  intros fromisoformat isoformat faults event_id row db Hne.
  unfold select_time, select_time_try.
  rewrite (select_after_foreign_insert event_id row db Hne). reflexivity.
Qed.

Lemma select_time_ignores_other_events_witness :
  select_time Iso.fromisoformat Iso.isoformat no_faults "e1"
    (Store.insert_availability
       (mkAvailability "D" "e2" "2024-07-01T09:30:00" "2024-07-01T10:00:00")
       scenario_a_db)
  = select_time Iso.fromisoformat Iso.isoformat no_faults "e1" scenario_a_db.
Proof.
  apply (select_time_ignores_other_events Iso.fromisoformat Iso.isoformat no_faults "e1"
           (mkAvailability "D" "e2" "2024-07-01T09:30:00" "2024-07-01T10:00:00")
           scenario_a_db).
  discriminate.
Defined.

(** X11.  One stored time that [fromisoformat] rejects, in any row of the
    event, makes the whole finalize fail: [select_time] swallows the
    exception, [find_best_time] returns its error and the store is
    unchanged. *)
Theorem find_best_time_unreadable_time :
  forall fromisoformat isoformat faults event_id row db,
    In row (Store.select_availabilities event_id db) ->
    raises (fromisoformat (av_startTime row))
    || raises (fromisoformat (av_endTime row)) = true ->
    select_time fromisoformat isoformat faults event_id db = None
    /\ find_best_time fromisoformat isoformat faults event_id db
       = (ErrorText "Unable to find a suitable time", db).
Proof.
  intros fromisoformat isoformat faults event_id row db Hin Hbad.
  assert (Hsel : select_time fromisoformat isoformat faults event_id db = None).
  { unfold select_time, select_time_try.
    pose proof (convert_raises fromisoformat _ row Hin Hbad) as Hr.
    destruct (faults (SelectAvailabilitiesStmt event_id)); [reflexivity|].
    destruct (Store.select_availabilities event_id db) as [|r rows];
      [reflexivity|].
    destruct (convert fromisoformat (r :: rows)); [discriminate | reflexivity]. }
  split; [exact Hsel|].
  unfold find_best_time. rewrite Hsel. reflexivity.
Qed.

Lemma find_best_time_unreadable_time_witness :
  let db :=
    Store.insert_availability
      (mkAvailability "D" "e1" "2024-07-01T09:30:00" "tomorrow") scenario_a_db in
  select_time Iso.fromisoformat Iso.isoformat no_faults "e1" db = None
  /\ find_best_time Iso.fromisoformat Iso.isoformat no_faults "e1" db
     = (ErrorText "Unable to find a suitable time", db).
Proof.
  apply (find_best_time_unreadable_time Iso.fromisoformat Iso.isoformat no_faults "e1"
           (mkAvailability "D" "e1" "2024-07-01T09:30:00" "tomorrow")).
  - right. right. right. left. reflexivity.
  - reflexivity.
Defined.

(** * Further properties of the best slot *)

Section BestSlotFacts.

Lemma coverage_zero_short : forall ws t,
  (forall w, In w ws -> endTime w - startTime w < thirty_minutes) ->
  coverage ws (t, t + thirty_minutes) = 0.
Proof.
  intros ws t Hshort. rewrite coverage_containing_count.
  induction ws as [|w ws IH]; [reflexivity|].
  cbn [containing_count].
  destruct (fully_contains_dec w (t, t + thirty_minutes)) as [[H1 H2] | _].
  - cbn [fst snd] in *.
    specialize (Hshort w (or_introl eq_refl)). lia.
  - rewrite Nat.add_0_l. apply IH. intros w' Hw'. apply Hshort. right. exact Hw'.
Qed.

Lemma all_slots_in_range : forall ws gs ge,
  py_min (map startTime ws) = Ok gs ->
  py_max (map endTime ws) = Ok ge ->
  is_datetime gs ->
  ge + thirty_minutes <= datetime_max ->
  all_slots ws = Ok (spec_slots gs ge).
Proof.
  intros ws gs ge Hmin Hmax Hgs Hge.
  rewrite (all_slots_loop ws gs ge Hmin Hmax).
  rewrite (slots_loop_cases gs ge [] Hgs), spec_slots_length.
  match goal with |- (if ?c then _ else _) = _ => destruct c eqn:E end;
    [reflexivity|].
  exfalso. apply Z.leb_gt in E.
  pose proof (ceil_div_bounds (ge - gs)) as [_ Hub].
  pose proof thirty_minutes_pos. unfold is_datetime in Hgs. lia.
Qed.

End BestSlotFacts.

(** X12.  When no window ends after the earliest start (every stored
    window is empty or reversed and they do not overlap), there is no slot
    and the selection raises: [select_time] then returns [None]. *)
Theorem best_slot_empty_span : forall ws,
  ws <> [] ->
  (forall w w', In w ws -> In w' ws -> endTime w <= startTime w') ->
  all_slots ws = Ok []
  /\ best_slot ws = Raise (ValueError "max() iterable argument is empty").
Proof.
  intros ws Hne Hspan.
  destruct (extrema_of_windows ws Hne)
    as [gs [ge [Hmin [Hmax [_ [[w [Hw Hgs]] [w' [Hw' Hge]]]]]]]].
  assert (Hall : all_slots ws = Ok []).
  { rewrite (all_slots_loop ws gs ge Hmin Hmax).
    apply slots_loop_done.
    specialize (Hspan w' w Hw' Hw). lia. }
  split; [exact Hall|]. unfold best_slot. rewrite Hall. reflexivity.
Qed.

Lemma best_slot_empty_span_witness :
  all_slots [ mkWindow "A" (at_minute 600) (at_minute 540) ] = Ok []
  /\ best_slot [ mkWindow "A" (at_minute 600) (at_minute 540) ]
     = Raise (ValueError "max() iterable argument is empty").
Proof.
  apply (best_slot_empty_span [ mkWindow "A" (at_minute 600) (at_minute 540) ]).
  - discriminate.
  - intros w w' [<- | []] [<- | []]. vm_compute. discriminate.
Defined.

(** X13.  A slot nobody fully covers can still be selected: when every
    window is shorter than thirty minutes, one of them is not empty, and
    all of them end at least half an hour before [datetime.max], every
    slot has coverage zero and the selection returns the first slot, the
    one that begins at the earliest start. *)
Theorem best_slot_of_short_windows : forall ws,
  (forall w, In w ws -> endTime w - startTime w < thirty_minutes) ->
  (exists w, In w ws /\ startTime w < endTime w) ->
  (forall w, In w ws ->
     is_datetime (startTime w) /\ endTime w + thirty_minutes <= datetime_max) ->
  exists global_start,
    py_min (map startTime ws) = Ok global_start
    /\ best_slot ws = Ok (global_start, global_start + thirty_minutes)
    /\ coverage ws (global_start, global_start + thirty_minutes) = 0.
Proof.
  intros ws Hshort [w0 [Hw0 Hpos]] Hrange.
  assert (Hne : ws <> []) by (intros ->; contradiction).
  destruct (extrema_of_windows ws Hne)
    as [gs [ge [Hmin [Hmax [Hb [[ws1 [Hws1 Hgs]] [we [Hwe Hge]]]]]]]].
  exists gs. split; [exact Hmin|].
  split; [|apply coverage_zero_short; exact Hshort].
  assert (Hall : all_slots ws = Ok (spec_slots gs ge)).
  { apply all_slots_in_range; try assumption.
    - rewrite <- Hgs. apply (Hrange ws1 Hws1).
    - rewrite <- Hge. apply (Hrange we Hwe). }
  unfold best_slot. rewrite Hall.
  cbn [bind_result].
  destruct (Hb w0 Hw0) as [Hlo Hhi].
  rewrite (spec_slots_step gs ge) by lia.
  destruct (py_max_key_first (coverage ws)
              ((gs, gs + thirty_minutes) :: spec_slots (gs + thirty_minutes) ge)
              ltac:(discriminate))
    as [before [r [after [Hbest [Hsplit [Hlt _]]]]]].
  rewrite Hbest. f_equal.
  destruct before as [|b before].
  - cbn [app] in Hsplit. injection Hsplit as Hr _. symmetry. exact Hr.
  - exfalso.
    assert (Hin : In r (spec_slots gs ge)).
    { rewrite (spec_slots_step gs ge) by lia. rewrite Hsplit.
      apply in_or_app. right. left. reflexivity. }
    pose proof (spec_slots_start_before_end gs ge r Hin) as [_ [_ Hlen]].
    destruct r as [r1 r2]. cbn [fst snd] in Hlen. subst r2.
    cbn [app] in Hsplit. injection Hsplit as Hb0 Hrest.
    inversion Hlt as [|? ? Hkey _]; subst b.
    rewrite (coverage_zero_short ws gs Hshort) in Hkey.
    pose proof (coverage_zero_short ws r1 Hshort) as Hzero.
    exact (Z.lt_irrefl 0 (eq_ind _ (fun v => 0 < v) Hkey _ Hzero)).
Qed.

Lemma best_slot_of_short_windows_witness :
  exists global_start,
    py_min (map startTime
              [ mkWindow "A" (at_minute 540) (at_minute 560);
                mkWindow "B" (at_minute 550) (at_minute 575) ])
    = Ok global_start
    /\ best_slot [ mkWindow "A" (at_minute 540) (at_minute 560);
                   mkWindow "B" (at_minute 550) (at_minute 575) ]
       = Ok (global_start, global_start + thirty_minutes)
    /\ coverage [ mkWindow "A" (at_minute 540) (at_minute 560);
                  mkWindow "B" (at_minute 550) (at_minute 575) ]
         (global_start, global_start + thirty_minutes) = 0.
Proof.
  apply (best_slot_of_short_windows
           [ mkWindow "A" (at_minute 540) (at_minute 560);
             mkWindow "B" (at_minute 550) (at_minute 575) ]).
  - intros w [<- | [<- | []]]; vm_compute; reflexivity.
  - exists (mkWindow "A" (at_minute 540) (at_minute 560)).
    split; [left; reflexivity | vm_compute; reflexivity].
  - intros w [<- | [<- | []]]; vm_compute; repeat split; discriminate.
Defined.

(** X14.  The selected slot lies inside the span of the windows: it
    begins a whole number of half hours after the earliest start and
    before the latest end, and it is thirty minutes long. *)
Theorem best_slot_within_span : forall ws best,
  best_slot ws = Ok best ->
  exists global_start global_end k,
    py_min (map startTime ws) = Ok global_start
    /\ py_max (map endTime ws) = Ok global_end
    /\ best = slot_at global_start k
    /\ global_start <= fst best < global_end
    /\ snd best = fst best + thirty_minutes.
Proof.
  intros ws best Hbest.
  destruct ws as [|w ws0]; [discriminate|].
  destruct (extrema_of_windows (w :: ws0) ltac:(discriminate))
    as [gs [ge [Hmin [Hmax _]]]].
  exists gs, ge.
  unfold best_slot in Hbest.
  destruct (all_slots (w :: ws0)) as [slots|e] eqn:Hall; [|discriminate].
  pose proof (all_slots_ok _ gs ge slots Hmin Hmax Hall) as Hspec. subst slots.
  cbn [bind_result] in Hbest.
  destruct (spec_slots gs ge) as [|s0 slots0] eqn:Hslots; [discriminate|].
  destruct (py_max_key_first (coverage (w :: ws0)) (s0 :: slots0)
              ltac:(discriminate))
    as [before [r [after [Hr [Hsplit _]]]]].
  rewrite Hr in Hbest. injection Hbest as ->.
  assert (Hin : In best (spec_slots gs ge)).
  { rewrite Hslots, Hsplit. apply in_or_app. right. left. reflexivity. }
  pose proof (spec_slots_start_before_end gs ge best Hin) as [Hlo [Hhi Hlen]].
  unfold spec_slots in Hin. apply in_map_iff in Hin. destruct Hin as [k [Hk _]].
  exists k. repeat split; auto.
Qed.

Lemma best_slot_within_span_witness :
  exists global_start global_end k,
    py_min (map startTime scenario_a) = Ok global_start
    /\ py_max (map endTime scenario_a) = Ok global_end
    /\ (at_minute 540, at_minute 570) = slot_at global_start k
    /\ global_start <= fst (at_minute 540, at_minute 570) < global_end
    /\ snd (at_minute 540, at_minute 570)
       = fst (at_minute 540, at_minute 570) + thirty_minutes.
Proof.
  apply (best_slot_within_span scenario_a (at_minute 540, at_minute 570)).
  reflexivity.
Defined.

(** X15.  Coverage adds up over submissions: the coverage of a slot by two
    lists of windows together is the sum of their coverages, so repeated
    and overlapping windows of one participant all count. *)
Theorem coverage_app : forall ws1 ws2 s,
  coverage (ws1 ++ ws2) s = coverage ws1 s + coverage ws2 s.
Proof.
  intros ws1 ws2 s.
  rewrite !coverage_containing_count, containing_count_app. lia.
Qed.

(** * Further properties of [lambda_handler] *)

Section DispatchFacts.

Variable fromisoformat : string -> result instant.
Variable isoformat : instant -> string.
Variable faults : store_faults.

Lemma load_start_time : load_global "start_time" = Raise (NameError "start_time").
Proof. reflexivity. Qed.

(** The [rsvp] branch: it raises, or it answers "Missing required
    parameters"; it never touches the store. *)
Lemma dispatch_rsvp : forall event db,
  snd (dispatch fromisoformat isoformat faults event "rsvp" db) = db
  /\ match fst (dispatch fromisoformat isoformat faults event "rsvp" db) with
     | Ok b => b = missing_parameters
     | Raise _ => True
     end.
Proof.
  intros event db. unfold dispatch.
  change (String.eqb "rsvp" "create_event") with false.
  change (String.eqb "rsvp" "rsvp") with true. cbv iota.
  destruct (get_named_parameter event "user_id") as [u|]; [|split; [reflexivity | exact I]].
  destruct (get_named_parameter event "event_id") as [e|]; [|split; [reflexivity | exact I]].
  destruct (get_named_parameter event "availiable_time") as [a|]; [|split; [reflexivity | exact I]].
  destruct (PyStr.truthy u && PyStr.truthy e).
  - rewrite load_start_time. split; [reflexivity | exact I].
  - split; reflexivity.
Qed.

Lemma dispatch_store : forall event fn db,
  fn <> "create_event"%string ->
  fn <> "find_best_time`"%string ->
  snd (dispatch fromisoformat isoformat faults event fn db) = db.
Proof.
  intros event fn db H1 H2.
  destruct (String.eqb_spec fn "rsvp") as [-> | Hr].
  - apply dispatch_rsvp.
  - unfold dispatch.
    apply String.eqb_neq in H1, H2, Hr. rewrite H1, Hr, H2. reflexivity.
Qed.

Lemma handler_store : forall event db,
  snd (lambda_handler fromisoformat isoformat faults event db)
  = snd (dispatch fromisoformat isoformat faults event
           (get_default (function event)) db).
Proof.
  intros event db. unfold lambda_handler.
  destruct (dispatch fromisoformat isoformat faults event
              (get_default (function event)) db) as [[b|e] db'];
    [destruct (messageVersion event)|]; reflexivity.
Qed.

End DispatchFacts.

(** X16.  The handler changes the store only for the actions
    ["create_event"] and ["find_best_time`"]: for every other request,
    [rsvp] included, the store it returns is the store it was given. *)
Theorem handler_writes_only_for_two_actions :
  forall fromisoformat isoformat faults event db,
    get_default (function event) <> "create_event"%string ->
    get_default (function event) <> "find_best_time`"%string ->
    snd (lambda_handler fromisoformat isoformat faults event db) = db.
Proof.
  intros fromisoformat isoformat faults event db H1 H2.
  rewrite handler_store. apply dispatch_store; assumption.
Qed.

Lemma handler_writes_only_for_two_actions_witness :
  snd (handler rsvp_request scenario_a_db) = scenario_a_db.
Proof.
  apply (handler_writes_only_for_two_actions Iso.fromisoformat Iso.isoformat no_faults
           rsvp_request scenario_a_db); discriminate.
Defined.

(** X17.  No [rsvp] request reaches [rsvp]: whatever its parameters, the
    handler either leaves with an exception or answers "Missing required
    parameters". *)
Theorem handler_rsvp_never_records :
  forall fromisoformat isoformat faults event db,
    function event = Some "rsvp"%string ->
    match fst (lambda_handler fromisoformat isoformat faults event db) with
    | Ok r => fr_responseBody r = missing_parameters
    | Raise _ => True
    end.
Proof.
  intros fromisoformat isoformat faults event db Hf.
  unfold lambda_handler. rewrite Hf. cbn [get_default].
  pose proof (dispatch_rsvp fromisoformat isoformat faults event db) as [_ Hbody].
  destruct (dispatch fromisoformat isoformat faults event "rsvp" db) as [[b|e] db'];
    cbn [fst] in *; [|exact I].
  destruct (messageVersion event); [exact Hbody | exact I].
Qed.

Lemma handler_rsvp_never_records_witness :
  match fst (handler
               (mkLambdaEvent None (Some "rsvp")
                  (Some [ ("user_id", "u1"); ("event_id", "");
                          ("availiable_time", "start:24-07-01:09-00") ]%string)
                  (Some "1.0"))
               empty_db) with
  | Ok r => fr_responseBody r = missing_parameters
  | Raise _ => True
  end.
Proof.
  apply (handler_rsvp_never_records Iso.fromisoformat Iso.isoformat no_faults).
  reflexivity.
Defined.



(** X19.  Whenever the handler returns a response, the response repeats
    the request's action group and function name (the empty string for an
    absent one) and its message version. *)
Theorem handler_response_echoes_request :
  forall fromisoformat isoformat faults event db r,
    fst (lambda_handler fromisoformat isoformat faults event db) = Ok r ->
    fr_actionGroup r = get_default (actionGroup event)
    /\ fr_function r = get_default (function event)
    /\ messageVersion event = Some (fr_messageVersion r).
Proof.
  intros fromisoformat isoformat faults event db r. unfold lambda_handler.
  destruct (dispatch fromisoformat isoformat faults event
              (get_default (function event)) db) as [[b|e] db'];
    [|discriminate].
  destruct (messageVersion event) as [v|]; [|discriminate].
  cbn [fst]. intros H. injection H as <-. repeat split.
Qed.

Lemma handler_response_echoes_request_witness :
  fr_actionGroup
    (mkFunctionResponse "" "find_best_time" (Plain "Invalid function") "1.0")
  = get_default None
  /\ fr_function
       (mkFunctionResponse "" "find_best_time" (Plain "Invalid function") "1.0")
     = get_default (Some "find_best_time"%string)
  /\ Some "1.0"%string
     = Some (fr_messageVersion
               (mkFunctionResponse "" "find_best_time"
                  (Plain "Invalid function") "1.0")).
Proof.
  apply (handler_response_echoes_request Iso.fromisoformat Iso.isoformat no_faults
           (mkLambdaEvent None (Some "find_best_time") None (Some "1.0"))
           empty_db).
  reflexivity.
Defined.

(** X20.  A [create_event] request in which one of the three parameters
    is the empty string creates nothing: the answer is "Missing required
    parameters" and the store is unchanged. *)
Theorem handler_create_event_empty_parameter :
  forall fromisoformat isoformat faults event db group_id period description version,
    function event = Some "create_event"%string ->
    messageVersion event = Some version ->
    get_named_parameter event "group_id" = Ok group_id ->
    get_named_parameter event "period" = Ok period ->
    get_named_parameter event "description" = Ok description ->
    PyStr.truthy group_id && PyStr.truthy period && PyStr.truthy description
    = false ->
    lambda_handler fromisoformat isoformat faults event db
    = (Ok (mkFunctionResponse (get_default (actionGroup event)) "create_event"
             missing_parameters version), db).
Proof.
  intros fromisoformat isoformat faults event db g p d v Hf Hv Hg Hp Hd Hempty.
  unfold lambda_handler. rewrite Hf. cbn [get_default].
  unfold dispatch. change (String.eqb "create_event" "create_event") with true.
  cbv iota. rewrite Hg, Hp, Hd, Hempty, Hv. reflexivity.
Qed.

Lemma handler_create_event_empty_parameter_witness :
  handler
    (mkLambdaEvent (Some "scheduler") (Some "create_event")
       (Some [ ("group_id", "g1"); ("period", ""); ("description", "standup") ]%string)
       (Some "1.0"))
    scenario_a_db
  = (Ok (mkFunctionResponse "scheduler" "create_event" missing_parameters "1.0"),
     scenario_a_db).
Proof.
  apply (handler_create_event_empty_parameter Iso.fromisoformat Iso.isoformat no_faults
           (mkLambdaEvent (Some "scheduler") (Some "create_event")
              (Some [ ("group_id", "g1"); ("period", "");
                      ("description", "standup") ]%string)
              (Some "1.0"))
           scenario_a_db "g1" "" "standup" "1.0"); reflexivity.
Defined.

(** * What [parse_datetime] writes, [fromisoformat] reads *)

Section RoundTripFacts.

Lemma digit_of_digit_char : forall d,
  Strptime.digit_of (Strptime.digit_char d) = Some (d mod 10)%nat.
Proof.
  intros d. unfold Strptime.digit_char.
  assert (H : (d mod 10 < 10)%nat) by (apply Nat.mod_upper_bound; lia).
  revert H. generalize (d mod 10)%nat. intros k Hk.
  do 10 (destruct k as [|k]; [reflexivity|]). lia.
Qed.

Lemma digits_pad2 : forall k acc n rest,
  (n < 100)%nat ->
  Iso.digits (S (S k)) acc (Strptime.pad2 n ++ rest)
  = Iso.digits k (100 * acc + Z.of_nat n) rest.
Proof.
  intros k acc n rest Hn. unfold Strptime.pad2.
  cbn [append Iso.digits]. rewrite !digit_of_digit_char.
  f_equal.
  pose proof (Nat.div_mod_eq n 10) as Hdm.
  assert (Hq : (n / 10 < 10)%nat) by (apply Nat.Div0.div_lt_upper_bound; lia).
  rewrite (Nat.mod_small (n / 10) 10 Hq). lia.
Qed.

Lemma is_leap_nat : forall y, Iso.is_leap (Z.of_nat y) = Strptime.is_leap y.
Proof.
  intros y. unfold Iso.is_leap, Strptime.is_leap.
  assert (H : forall k : nat, (0 < k)%nat ->
            (Z.of_nat y mod Z.of_nat k =? 0) = (y mod k =? 0)%nat).
  { intros k Hk. rewrite <- Nat2Z.inj_mod.
    destruct (Nat.eqb_spec (y mod k) 0) as [E | E].
    - rewrite E. reflexivity.
    - apply Z.eqb_neq. lia. }
  rewrite <- (H 4%nat), <- (H 100%nat), <- (H 400%nat) by lia. reflexivity.
Qed.

Lemma days_in_month_nat : forall y m,
  (1 <= m <= 12)%nat ->
  Iso.days_in_month (Z.of_nat y) (Z.of_nat m)
  = Z.of_nat (Strptime.days_in_month y m).
Proof.
  intros y m Hm. unfold Iso.days_in_month. rewrite is_leap_nat.
  assert (H : (m = 1 \/ m = 2 \/ m = 3 \/ m = 4 \/ m = 5 \/ m = 6 \/ m = 7
               \/ m = 8 \/ m = 9 \/ m = 10 \/ m = 11 \/ m = 12)%nat) by lia.
  repeat (destruct H as [-> | H]); try subst m; cbn;
    try reflexivity; destruct (Strptime.is_leap y); reflexivity.
Qed.

End RoundTripFacts.

Section ReadBackFacts.

Lemma string_app_assoc : forall a b c : string,
  ((a ++ b) ++ c = a ++ (b ++ c))%string.
Proof.
  intros a b c. induction a as [|x a IH]; [reflexivity|].
  cbn [append]. rewrite IH. reflexivity.
Qed.

Lemma sep_head : forall c rest, Iso.sep c (String c rest) = Some rest.
Proof. intros c rest. unfold Iso.sep. rewrite Ascii.eqb_refl. reflexivity. Qed.

Lemma digits2_pad2 : forall n rest,
  (n < 100)%nat ->
  Iso.digits 2 0 (Strptime.pad2 n ++ rest) = Some (Z.of_nat n, rest).
Proof.
  intros n rest Hn. rewrite digits_pad2 by exact Hn.
  cbn [Iso.digits]. repeat f_equal; lia.
Qed.

Lemma digits4_pad4 : forall y rest,
  (y / 100 < 100)%nat ->
  Iso.digits 4 0 (Strptime.pad4 y ++ rest) = Some (Z.of_nat y, rest).
Proof.
  intros y rest Hy. unfold Strptime.pad4. rewrite string_app_assoc.
  rewrite digits_pad2 by exact Hy.
  rewrite digits_pad2 by (apply Nat.mod_upper_bound; lia).
  cbn [Iso.digits]. pose proof (Nat.div_mod_eq y 100) as Hdm.
  repeat f_equal; lia.
Qed.

Lemma fields_isoformat : forall t,
  (year t / 100 < 100)%nat -> (month t < 100)%nat -> (day t < 100)%nat ->
  (hour t < 100)%nat -> (minute t < 100)%nat ->
  Iso.fields (Strptime.isoformat t)
  = Some (Z.of_nat (year t), Z.of_nat (month t), Z.of_nat (day t),
          Z.of_nat (hour t), Z.of_nat (minute t), 0).
Proof.
  intros t Hy Hm Hd HH HM.
  unfold Iso.fields, Strptime.isoformat.
  rewrite digits4_pad4 by exact Hy.
  cbn [Iso.opt_bind append]. rewrite sep_head.
  cbn [Iso.opt_bind]. rewrite digits2_pad2 by exact Hm.
  cbn [Iso.opt_bind append]. rewrite sep_head.
  cbn [Iso.opt_bind]. rewrite digits2_pad2 by exact Hd.
  cbn [Iso.opt_bind append]. rewrite sep_head.
  cbn [Iso.opt_bind]. rewrite digits2_pad2 by exact HH.
  cbn [Iso.opt_bind append]. rewrite sep_head.
  cbn [Iso.opt_bind]. rewrite digits2_pad2 by exact HM.
  reflexivity.
Qed.

End ReadBackFacts.

Lemma days_in_month_le_31 : forall y m,
  (Strptime.days_in_month y m <= 31)%nat.
Proof.
  intros y m. unfold Strptime.days_in_month.
  do 12 (destruct m as [|m]; [try destruct (Strptime.is_leap y); lia|]). lia.
Qed.

(** X21.  What [parse_datetime] prints, the reference [fromisoformat]
    reads back: every string [parse_datetime] returns is accepted, and the
    instant it denotes is the minute [strptime] parsed, counted in
    microseconds from 0001-01-01. *)
Theorem parse_datetime_output_is_readable : forall s iso,
  parse_datetime s = Ok iso ->
  exists t,
    Strptime.strptime (PyStr.lstrip "start:" s) = Ok t
    /\ iso = Strptime.isoformat t
    /\ Iso.fromisoformat iso
       = Ok (((((Iso.ymd2ord (Z.of_nat (year t)) (Z.of_nat (month t))
                             (Z.of_nat (day t)) - 1) * 24
                + Z.of_nat (hour t)) * 60 + Z.of_nat (minute t)) * 60 + 0)
             * 1000000).
Proof.
  intros s iso. unfold parse_datetime.
  destruct (Strptime.strptime (PyStr.lstrip "start:" s)) as [t|e] eqn:E;
    [|discriminate].
  intros H. injection H as <-. exists t.
  split; [reflexivity|]. split; [reflexivity|].
  destruct (strptime_fields _ _ E) as [Hy [Hm [Hd [HH HM]]]].
  pose proof (days_in_month_le_31 (year t) (month t)) as Hdim.
  unfold Iso.fromisoformat.
  rewrite fields_isoformat;
    [| apply Nat.Div0.div_lt_upper_bound; lia | lia | lia | lia | lia].
  rewrite days_in_month_nat by exact Hm.
  assert (Hvalid :
    (1 <=? Z.of_nat (year t)) && (1 <=? Z.of_nat (month t))
    && (Z.of_nat (month t) <=? 12) && (1 <=? Z.of_nat (day t))
    && (Z.of_nat (day t)
        <=? Z.of_nat (Strptime.days_in_month (year t) (month t)))
    && (Z.of_nat (hour t) <? 24) && (Z.of_nat (minute t) <? 60) && (0 <? 60)
    = true).
  { repeat (apply andb_true_intro; split);
      try (apply Z.leb_le; lia); try (apply Z.ltb_lt; lia). }
  rewrite Hvalid. reflexivity.
Qed.

Lemma parse_datetime_output_is_readable_witness :
  exists t,
    Strptime.strptime (PyStr.lstrip "start:" "start:24-07-01:09-00") = Ok t
    /\ "2024-07-01T09:00:00"%string = Strptime.isoformat t
    /\ Iso.fromisoformat "2024-07-01T09:00:00"
       = Ok (((((Iso.ymd2ord (Z.of_nat (year t)) (Z.of_nat (month t))
                             (Z.of_nat (day t)) - 1) * 24
                + Z.of_nat (hour t)) * 60 + Z.of_nat (minute t)) * 60 + 0)
             * 1000000).
Proof.
  apply (parse_datetime_output_is_readable "start:24-07-01:09-00").
  reflexivity.
Defined.
